(** * Eastmoney fund sensor: a shallow embedding of
      [custom_components/sensor/eastmoney.py]

    The development follows the Python module top to bottom:

    - [PyStr]: the string operations the module calls ([str.split],
      [str.lstrip], [str.rstrip], the slice [s[0:-1]], the regular
      expression [PAT_DATE] and the sign of [float(s)]);
    - [Soup]: the parsed document tree and the two BeautifulSoup queries
      the module uses ([find], [find_all]) together with [.text];
    - a small exception-and-state monad for the methods that log or raise;
    - [EastmoneyData] (the fetcher) and [EastmoneySensor] (the entity),
      and [setup_platform];
    - the properties of the fetch pipeline and of the entity.

    Strings are Rocq [string]s; one [ascii] stands for one character of
    the Python [str], so the embedding covers pages whose relevant text
    is in the 8-bit range. *)

From Stdlib Require Import String Ascii List ZArith Bool Lia.
Import ListNotations.
Local Open Scope string_scope.

(* ================================================================== *)
(** ** Python string operations *)
(* ================================================================== *)

Module PyStr.

(** [s.split(sep)] for a one-character separator: the text is cut at
    every occurrence of [sep]; the result is never empty. *)
Fixpoint split (sep : ascii) (s : string) : list string :=
  match s with
  | EmptyString => [EmptyString]
  | String c r =>
      if Ascii.eqb c sep then EmptyString :: split sep r
      else match split sep r with
           | [] => [String c EmptyString]
           | p :: ps => String c p :: ps
           end
  end.

(** [s.lstrip(c)] for a one-character set. *)
Fixpoint lstrip (c : ascii) (s : string) : string :=
  match s with
  | EmptyString => EmptyString
  | String a r => if Ascii.eqb a c then lstrip c r else s
  end.

Definition is_empty (s : string) : bool :=
  match s with EmptyString => true | _ => false end.

(** [s.rstrip(c)] for a one-character set. *)
Fixpoint rstrip (c : ascii) (s : string) : string :=
  match s with
  | EmptyString => EmptyString
  | String a r =>
      let r' := rstrip c r in
      if Ascii.eqb a c && is_empty r' then EmptyString else String a r'
  end.

(** The slice [s[0:-1]]: everything but the last character; the empty
    string stays empty. *)
Fixpoint drop_last (s : string) : string :=
  match s with
  | EmptyString => EmptyString
  | String a r =>
      match r with
      | EmptyString => EmptyString
      | _ => String a (drop_last r)
      end
  end.

Definition is_digit (c : ascii) : bool :=
  (48 <=? nat_of_ascii c)%nat && (nat_of_ascii c <=? 57)%nat.

Definition digit_val (c : ascii) : Z := Z.of_nat (nat_of_ascii c) - 48.

(** *** [PAT_DATE = re.compile(r'\d{4}-\d{1,2}-\d{1,2}')] *)

(** The greedy [\d{1,2}] at the end of the pattern: two digits when two
    are there, one otherwise. *)
Definition match_day (s : string) : option string :=
  match s with
  | String d1 (String d2 _) =>
      if is_digit d1 then
        if is_digit d2 then Some (String d1 (String d2 EmptyString))
        else Some (String d1 EmptyString)
      else None
  | String d1 EmptyString =>
      if is_digit d1 then Some (String d1 EmptyString) else None
  | EmptyString => None
  end.

(** The middle [\d{1,2}-]: the greedy two-digit attempt is tried first;
    falling back to one digit can only succeed when the second character
    is the dash itself. *)
Definition match_month (s : string) : option (string * string) :=
  match s with
  | String m1 (String m2 r) =>
      if is_digit m1 then
        if is_digit m2 then
          match r with
          | String "-"%char r' =>
              Some (String m1 (String m2 (String "-"%char EmptyString)), r')
          | _ => None
          end
        else if Ascii.eqb m2 "-"%char then
          Some (String m1 (String "-"%char EmptyString), r)
        else None
      else None
  | _ => None
  end.

(** A match of [PAT_DATE] anchored at the start of [s]. *)
Definition match_date_at (s : string) : option string :=
  match s with
  | String y1 (String y2 (String y3 (String y4 (String "-"%char r)))) =>
      if is_digit y1 && is_digit y2 && is_digit y3 && is_digit y4 then
        match match_month r with
        | Some (mm, r') =>
            match match_day r' with
            | Some dd =>
                Some (String y1 (String y2 (String y3 (String y4
                       (String "-"%char (mm ++ dd))))))
            | None => None
            end
        | None => None
        end
      else None
  | _ => None
  end.

(** [re.findall(PAT_DATE, s)] restricted to its first element: the
    leftmost match, [None] when the list is empty. *)
Fixpoint first_date (s : string) : option string :=
  match match_date_at s with
  | Some d => Some d
  | None =>
      match s with
      | EmptyString => None
      | String _ r => first_date r
      end
  end.

(** *** The sign of [float(s)] *)

(** What [float] makes of a string, kept exact: a decimal numeral
    [(-1)^neg * m * 10^e] before rounding, an infinity, or a NaN. *)
Inductive pyfloat : Type :=
| FNan
| FInf (neg : bool)
| FDec (neg : bool) (m : Z) (e : Z).

(** The characters [float] drops at both ends of its argument.  It
    first replaces every whitespace character from code point 127 on by
    a space (in the 8-bit range these are U+0085 and U+00A0), then strips
    the ASCII whitespace: tab to carriage return (9 to 13) and the space
    (32).  The separators 28 to 31 are below 127 and no ASCII whitespace:
    they stay where they are and make the text no numeral. *)
Definition is_space (c : ascii) : bool :=
  let n := nat_of_ascii c in
  ((9 <=? n)%nat && (n <=? 13)%nat) || (n =? 32)%nat
  || (n =? 133)%nat || (n =? 160)%nat.

Fixpoint lstrip_space (s : string) : string :=
  match s with
  | EmptyString => EmptyString
  | String a r => if is_space a then lstrip_space r else s
  end.

Fixpoint rstrip_space (s : string) : string :=
  match s with
  | EmptyString => EmptyString
  | String a r =>
      let r' := rstrip_space r in
      if is_space a && is_empty r' then EmptyString else String a r'
  end.

Definition strip_space (s : string) : string := rstrip_space (lstrip_space s).

Definition lower (c : ascii) : ascii :=
  let n := nat_of_ascii c in
  if (65 <=? n)%nat && (n <=? 90)%nat then ascii_of_nat (n + 32) else c.

Fixpoint lower_str (s : string) : string :=
  match s with
  | EmptyString => EmptyString
  | String a r => String (lower a) (lower_str r)
  end.

(** Reads the leading decimal digits of [s]: the value accumulated on top
    of [acc], how many digits were read, and what follows them. *)
Fixpoint span_digits (s : string) (acc : Z) (cnt : Z) : Z * Z * string :=
  match s with
  | String c r =>
      if is_digit c then span_digits r (10 * acc + digit_val c) (cnt + 1)
      else (acc, cnt, s)
  | EmptyString => (acc, cnt, s)
  end.

Definition read_sign (s : string) : bool * string :=
  match s with
  | String "-"%char r => (true, r)
  | String "+"%char r => (false, r)
  | _ => (false, s)
  end.

(** The exponent part: absent, or [e]/[E], an optional sign and at least
    one digit, up to the end of the string. *)
Definition read_exponent (s : string) : option Z :=
  match s with
  | EmptyString => Some 0%Z
  | String c r =>
      if Ascii.eqb (lower c) "e"%char then
        let '(neg, r1) := read_sign r in
        let '(v, n, r2) := span_digits r1 0 0 in
        if (0 <? n)%Z && is_empty r2
        then Some (if neg then (- v)%Z else v)
        else None
      else None
  end.

(** Digits, an optional point and more digits (at least one digit in
    all), then the exponent part. *)
Definition read_decimal (neg : bool) (s : string) : option pyfloat :=
  let '(m1, n1, r1) := span_digits s 0 0 in
  let '(m2, n2, r2) :=
    match r1 with
    | String "."%char r => span_digits r m1 0
    | _ => (m1, 0%Z, r1)
    end in
  if (0 <? n1 + n2)%Z then
    match read_exponent r2 with
    | Some x => Some (FDec neg m2 (x - n2))
    | None => None
    end
  else None.

(** [float(s)] on a string: [None] stands for [ValueError]. *)
Definition parse_float (s : string) : option pyfloat :=
  let '(neg, r) := read_sign (strip_space s) in
  let l := lower_str r in
  if String.eqb l "inf" || String.eqb l "infinity" then Some (FInf neg)
  else if String.eqb l "nan" then Some FNan
  else read_decimal neg r.

(** A decimal [m * 10^e] rounds to zero exactly when it is at most
    [2^-1075], half of the smallest subnormal double. *)
Definition rounds_to_zero (m e : Z) : bool :=
  (m <=? 0)%Z || ((e <? 0)%Z && (m * 2 ^ 1075 <=? 10 ^ (- e))%Z).

(** [x < 0] and [x > 0] on the parsed value; both are false on a NaN and
    on either zero. *)
Definition lt0 (x : pyfloat) : bool :=
  match x with
  | FNan => false
  | FInf neg => neg
  | FDec neg m e => neg && negb (rounds_to_zero m e)
  end.

Definition gt0 (x : pyfloat) : bool :=
  match x with
  | FNan => false
  | FInf neg => negb neg
  | FDec neg m e => negb neg && negb (rounds_to_zero m e)
  end.

End PyStr.

(* ================================================================== *)
(** ** The parsed document *)
(* ================================================================== *)

Module Soup.

Local Set Warnings "-register-all".

(** A node of the tree BeautifulSoup builds: a string, or a tag with its
    name, its [id] attribute, the whitespace-separated values of its
    [class] attribute (empty when the attribute is absent) and its
    children.  The document object itself is a tag whose children are the
    top-level nodes. *)
Inductive node : Type :=
| Text (s : string)
| Tag (name : string) (id : option string) (classes : list string)
      (children : list node).

(** All nodes below [n], in document order; [n] itself is not included. *)
Fixpoint descendants (n : node) : list node :=
  match n with
  | Text _ => []
  | Tag _ _ _ cs => flat_map (fun c => c :: descendants c) cs
  end.

(** [.text]: the strings below the node, concatenated. *)
Fixpoint text (n : node) : string :=
  match n with
  | Text s => s
  | Tag _ _ _ cs => String.concat "" (map text cs)
  end.

(** The keyword filters the module passes to [find]. *)
Inductive attr_filter : Type :=
| NoAttr
| Id (v : string)
| Class_ (v : string).

(** A [class_] filter matches when one of the values of the attribute is
    the wanted string, or when the values joined by single spaces are. *)
Definition class_matches (classes : list string) (v : string) : bool :=
  existsb (String.eqb v) classes || String.eqb (String.concat " " classes) v.

Definition attr_matches (f : attr_filter) (id : option string)
    (classes : list string) : bool :=
  match f with
  | NoAttr => true
  | Id v => match id with Some i => String.eqb i v | None => false end
  | Class_ v =>
      match classes with
      | [] => false
      | _ => class_matches classes v
      end
  end.

Definition matches (name : string) (f : attr_filter) (n : node) : bool :=
  match n with
  | Text _ => false
  | Tag nm id classes _ => String.eqb nm name && attr_matches f id classes
  end.

(** [n.find_all(name, ...)] and [n.find(name, ...)]: the matching
    descendants in document order, and the first of them. *)
Definition find_all (n : node) (name : string) (f : attr_filter) : list node :=
  filter (matches name f) (descendants n).

Definition find (n : node) (name : string) (f : attr_filter) : option node :=
  List.find (matches name f) (descendants n).

End Soup.

(* ================================================================== *)
(** ** Exceptions, the log and the network *)
(* ================================================================== *)

Inductive exn : Type :=
| TypeError | ValueError | IndexError
| ConnectError | HTTPError | Timeout
| RequestException.

Inductive res (A : Type) : Type :=
| Val (a : A)
| Exc (e : exn).
Arguments Val {A} a.
Arguments Exc {A} e.

(** A computation over a state [S] that returns or raises; the state
    reached is kept in both cases, as mutations made before a [raise]
    stay in place. *)
Definition M (S A : Type) : Type := S -> res A * S.

Definition ret {S A : Type} (a : A) : M S A := fun s => (Val a, s).

Definition raise {S A : Type} (e : exn) : M S A := fun s => (Exc e, s).

Definition bind {S A B : Type} (m : M S A) (k : A -> M S B) : M S B :=
  fun s =>
    match m s with
    | (Val a, s') => k a s'
    | (Exc e, s') => (Exc e, s')
    end.

Declare Scope py_scope.
Delimit Scope py_scope with py.
Notation "x <- m ;; k" := (bind m (fun x => k))
  (at level 61, m at next level, right associativity) : py_scope.
Notation "m ;; k" := (bind m (fun _ => k))
  (at level 61, right associativity) : py_scope.

(** What is observable outside the objects: the lines written through
    [_LOGGER.error] and the URLs requested, both oldest first. *)
Record World : Type := {
  w_log : list string;
  w_requests : list string
}.

Definition log_line (msg : string) (w : World) : World :=
  {| w_log := w_log w ++ [msg]; w_requests := w_requests w |}.

Definition note_request (url : string) (w : World) : World :=
  {| w_log := w_log w; w_requests := w_requests w ++ [url] |}.

(** [_LOGGER.error(msg)] followed by [return a]. *)
Definition _LOGGER_error {A : Type} (msg : string) (a : A) : M World A :=
  fun w => (Val a, log_line msg w).

(** The answer the network gives to the one [requests.get] a poll can
    issue: an exception, or a response whose body parses to [soup]. *)
Inductive http_result : Type :=
| Raises (e : exn)
| Response (soup : Soup.node).

Definition requests_get (url : string) (reply : http_result) : M World Soup.node :=
  fun w =>
    let w' := note_request url w in
    match reply with
    | Raises e => (Exc e, w')
    | Response soup => (Val soup, w')
    end.

(** [float(x)] on a value that is a [str] or [None]. *)
Definition py_float {S : Type} (x : option string) : M S PyStr.pyfloat :=
  match x with
  | None => raise TypeError
  | Some s =>
      match PyStr.parse_float s with
      | Some f => ret f
      | None => raise ValueError
      end
  end.

(** [x[0:-1]] on a value that is a [str] or [None]. *)
Definition py_slice_0_m1 {S : Type} (x : option string) : M S string :=
  match x with
  | None => raise TypeError
  | Some s => ret (PyStr.drop_last s)
  end.

(** ['-' + x] on a value that is a [str] or [None]. *)
Definition py_minus_concat {S : Type} (x : option string) : M S (option string) :=
  match x with
  | None => raise TypeError
  | Some s => ret (Some ("-" ++ s))
  end.

(** [re.findall(PAT_DATE, s)[0]]. *)
Definition py_findall_0 {S : Type} (s : string) : M S (option string) :=
  match PyStr.first_date s with
  | Some d => ret (Some d)
  | None => raise IndexError
  end.

(* ================================================================== *)
(** ** The data held by the fetcher *)
(* ================================================================== *)

(** The dictionary [_get_estnav] returns.  Every value is a [str] or
    [None], as in the source; which of them are always strings is a
    property of the code, proved below. *)
Module EstNav.
Record t : Type := {
  enav_time : option string;
  enav : option string;
  enav_growth : option string;
  enav_rate : option string;
  rct_1month : option string;
  rct_1year : option string
}.
End EstNav.

(** The dictionary [_get_nav] returns. *)
Module Nav.
Record t : Type := {
  nav_date : option string;
  nav : option string;
  nav_rate : option string;
  rct_3month : option string;
  rct_3year : option string
}.
End Nav.

(** The dictionary [_analyze] returns and [EastmoneyData.data] holds. *)
Record Snapshot : Type := {
  est_nav : EstNav.t;
  nav : Nav.t;
  last_update : option string
}.

(** Modelled from the spec: [homeassistant.util.Throttle], the decorator
    [EastmoneyData.__init__] wraps [_update] in, is not part of the
    source tree.  The spec describes it as an explicit guard holding the
    time of the last attempt, checked at the top of [update()]: a call
    less than the configured interval after it returns at once; any other
    call runs the pipeline and records its own time, whatever the
    outcome.  Times are in seconds. *)
Module Throttle.

Record t : Type := {
  min_time : Z;
  last_call : option Z
}.

Definition throttled (now : Z) (th : t) : bool :=
  match last_call th with
  | Some t0 => (now - t0 <? min_time th)%Z
  | None => false
  end.

Definition stamp (now : Z) (th : t) : t :=
  {| min_time := min_time th; last_call := Some now |}.

End Throttle.

(* ================================================================== *)
(** ** [class EastmoneyData] *)
(* ================================================================== *)

Module EastmoneyData.

Import Soup.
Local Open Scope py_scope.

Record t : Type := {
  fund_id : string;
  data : option Snapshot;
  throttle : Throttle.t
}.

Definition __init__ (fund_id : string) (internal : Z) : t :=
  {| fund_id := fund_id;
     data := None;
     throttle := {| Throttle.min_time := internal; Throttle.last_call := None |} |}.

Definition set_data (self : t) (d : option Snapshot) : t :=
  {| fund_id := fund_id self; data := d; throttle := throttle self |}.

Definition set_throttle (self : t) (th : Throttle.t) : t :=
  {| fund_id := fund_id self; data := data self; throttle := th |}.

Definition green_middle : string := "ui-font-middle ui-color-green ui-num".
Definition red_middle : string := "ui-font-middle ui-color-red ui-num".
Definition green_large : string := "ui-font-large ui-color-green ui-num".
Definition red_large : string := "ui-font-large ui-color-red ui-num".

(** [x = n.find(...)] followed by [if x is None: x = n.find(...)]. *)
Definition find_or (n : node) (name : string) (f g : attr_filter) : option node :=
  match find n name f with
  | Some x => Some x
  | None => find n name g
  end.

(** [if x is not None: x = x.text]. *)
Definition text_of (x : option node) : option string := option_map text x.

Definition is_None {A : Type} (x : option A) : bool :=
  match x with None => true | Some _ => false end.

Definition _get_fund_tit (soup : node) : option (list string) :=
  match find soup "div" (Class_ "fundDetail-tit") with
  | None => None
  | Some fund_tit =>
      match find fund_tit "div" NoAttr with
      | None => None
      | Some tit => Some (PyStr.split "("%char (text tit))
      end
  end.

Definition _get_estnav (estnav_data : node) : M World (option EstNav.t) :=
  let nav_time := find estnav_data "span" (Id "gz_gztime") in
  let dds := find_all estnav_data "dd" NoAttr in
  match dds with
  | [dd0; dd1; dd2] =>
      let nav := find dd0 "span" (Id "gz_gsz") in
      let nav_growth := find dd0 "span" (Id "gz_gszze") in
      let nav_rate := find dd0 "span" (Id "gz_gszzl") in
      let rct_1month := find_or dd1 "span" (Class_ green_middle) (Class_ red_middle) in
      let rct_1year := find_or dd2 "span" (Class_ green_middle) (Class_ red_middle) in
      let nav_time :=
        option_map (fun x => PyStr.rstrip ")"%char (PyStr.lstrip "("%char (text x)))
                   nav_time in
      let nav := text_of nav in
      let nav_growth := text_of nav_growth in
      let nav_rate := text_of nav_rate in
      let rct_1month := text_of rct_1month in
      let rct_1year := text_of rct_1year in
      if is_None nav || is_None nav_time then ret None
      else
        (* Correct the growth *)
        s <- py_slice_0_m1 nav_rate ;;
        r <- py_float (Some s) ;;
        nav_growth <- (if PyStr.lt0 r then py_minus_concat nav_growth
                       else ret nav_growth) ;;
        ret (Some {| EstNav.enav_time := nav_time;
                     EstNav.enav := nav;
                     EstNav.enav_growth := nav_growth;
                     EstNav.enav_rate := nav_rate;
                     EstNav.rct_1month := rct_1month;
                     EstNav.rct_1year := rct_1year |})
  | _ => _LOGGER_error "Element 'dd' error." None
  end.

Definition _get_nav (nav_data : node) : M World (option Nav.t) :=
  let date := find nav_data "dt" NoAttr in
  let dds := find_all nav_data "dd" NoAttr in
  match dds with
  | [dd0; dd1; dd2] =>
      let nav := find_or dd0 "span" (Class_ green_large) (Class_ red_large) in
      let nav_rate := find_or dd0 "span" (Class_ green_middle) (Class_ red_middle) in
      let rct_3month := find dd1 "span" (Class_ green_middle) in
      let rct_3year := find dd2 "span" (Class_ red_middle) in
      date <- match date with
              | Some d => py_findall_0 (text d)
              | None => ret None
              end ;;
      let nav := text_of nav in
      let nav_rate := text_of nav_rate in
      let rct_3month := text_of rct_3month in
      let rct_3year := text_of rct_3year in
      if is_None nav || is_None date then ret None
      else
        ret (Some {| Nav.nav_date := date;
                     Nav.nav := nav;
                     Nav.nav_rate := nav_rate;
                     Nav.rct_3month := rct_3month;
                     Nav.rct_3year := rct_3year |})
  | _ => _LOGGER_error "Element 'dd' error." None
  end.

Definition _analyze (soup : node) : M World (option Snapshot) :=
  match find soup "div" (Class_ "fundInfoItem") with
  | None => _LOGGER_error "Element 'div,class_=fundInfoItem' not found." None
  | Some fund_info_item =>
      match find fund_info_item "div" (Class_ "dataOfFund") with
      | None => _LOGGER_error "Element 'div,class_=dataOfFund' not found." None
      | Some fund_data =>
          let data_item_01 := find fund_data "dl" (Class_ "dataItem01") in
          let data_item_02 := find fund_data "dl" (Class_ "dataItem02") in
          match data_item_01, data_item_02 with
          | Some data_item_01, Some data_item_02 =>
              est_nav <- _get_estnav data_item_01 ;;
              nav <- _get_nav data_item_02 ;;
              match est_nav, nav with
              | Some est_nav, Some nav =>
                  ret (Some {| est_nav := est_nav;
                               nav := nav;
                               last_update := EstNav.enav_time est_nav |})
              | _, _ => ret None
              end
          | _, _ =>
              _LOGGER_error "Element 'div,class_=dataItem01|dataItem02' not found." None
          end
      end
  end.

(** The exception classes of the [except] clause around [requests.get]. *)
Definition caught (e : exn) : bool :=
  match e with
  | ConnectError | HTTPError | Timeout | ValueError => true
  | _ => false
  end.

(** [str(error)] in the log line: of the text of the exception the
    embedding keeps the name of its class. *)
Definition exn_str (e : exn) : string :=
  match e with
  | TypeError => "TypeError"
  | ValueError => "ValueError"
  | IndexError => "IndexError"
  | ConnectError => "ConnectionError"
  | HTTPError => "HTTPError"
  | Timeout => "Timeout"
  | RequestException => "RequestException"
  end.

Definition url_of (fund_id : string) : string :=
  "http://fund.eastmoney.com/" ++ fund_id ++ ".html?spm=aladin".

(** [tit is not None and len(tit) == 2 and tit[1] == self.fund_id]. *)
Definition tit_ok (tit : option (list string)) (fund_id : string) : bool :=
  match tit with
  | None => false
  | Some tit => (length tit =? 2)%nat && String.eqb (nth 1 tit "") fund_id
  end.

(** Lifts a computation on the world to one on an object and the world. *)
Definition on_world {A : Type} (m : M World A) : M (t * World) A :=
  fun '(self, w) => let '(r, w') := m w in (r, (self, w')).

Definition assign_data (d : option Snapshot) : M (t * World) unit :=
  fun '(self, w) => (Val tt, (set_data self d, w)).

Definition _update (reply : http_result) : M (t * World) unit :=
  fun '(self, w) =>
    let url := url_of (fund_id self) in
    match requests_get url reply w with
    | (Exc error, w1) =>
        if caught error
        then on_world (_LOGGER_error
               ("Unable to connect to Eastmoney. " ++ exn_str error) tt) (self, w1)
        else (Exc error, (self, w1))
    | (Val soup, w1) =>
        let tit := _get_fund_tit soup in
        if tit_ok tit (fund_id self)
        then (d <- on_world (_analyze soup) ;; assign_data d) (self, w1)
        else on_world (_LOGGER_error
               ("Invalid fund id: " ++ fund_id self ++ ".") tt) (self, w1)
    end.

(** [self.update = Throttle(internal)(self._update)]. *)
Definition update (now : Z) (reply : http_result) : M (t * World) unit :=
  fun '(self, w) =>
    if Throttle.throttled now (throttle self) then (Val tt, (self, w))
    else
      let '(r, (self', w')) := _update reply (self, w) in
      (r, (set_throttle self' (Throttle.stamp now (throttle self')), w')).

End EastmoneyData.

(* ================================================================== *)
(** ** [class EastmoneySensor] *)
(* ================================================================== *)

Module EastmoneySensor.

Record t : Type := {
  fund_data : EastmoneyData.t;
  client_name : string;
  _state : option string;
  _trend : Z
}.

Definition __init__ (fund_data : EastmoneyData.t) (name : string) : t :=
  {| fund_data := fund_data;
     client_name := name;
     _state := None;
     _trend := (-1)%Z |}.

Definition name (self : t) : string := client_name self.

Definition state (self : t) : option string := _state self.

Definition icon (self : t) : string :=
  if (_trend self =? 1)%Z then "mdi:trending-up"
  else if (_trend self =? -1)%Z then "mdi:trending-down"
  else "mdi:trending-neutral".

Definition ATTRIBUTION : string := "Powered by East Money".

Definition ATTR_ATTRIBUTION : string := "attribution".

(** ['{0} {1}'.format(x, ATTRIBUTION)] on a value that is a [str] or
    [None]. *)
Definition format_attribution (x : option string) : string :=
  match x with
  | Some s => s ++ " " ++ ATTRIBUTION
  | None => "None " ++ ATTRIBUTION
  end.

(** The attribute dictionary, as the list of its items in insertion
    order; a value is a [str] or [None]. *)
Definition device_state_attributes (self : t) : list (string * option string) :=
  match EastmoneyData.data (fund_data self) with
  | None => [(ATTR_ATTRIBUTION, Some ATTRIBUTION)]
  | Some data =>
      let est_nav := est_nav data in
      let nav := nav data in
      [ (ATTR_ATTRIBUTION, Some (format_attribution (last_update data)));
        ("est growth", EstNav.enav_growth est_nav);
        ("est growth rate", EstNav.enav_rate est_nav);
        ("recent 1 month", EstNav.rct_1month est_nav);
        ("recent 1 year", EstNav.rct_1year est_nav);
        ("last trading day", Nav.nav_date nav);
        ("last nav", Nav.nav nav);
        ("last growth rate", Nav.nav_rate nav) ]
  end.

Definition set_fund_data (self : t) (fd : EastmoneyData.t) : t :=
  {| fund_data := fd; client_name := client_name self;
     _state := _state self; _trend := _trend self |}.

Definition set_state (self : t) (v : option string) : t :=
  {| fund_data := fund_data self; client_name := client_name self;
     _state := v; _trend := _trend self |}.

Definition set_trend (self : t) (v : Z) : t :=
  {| fund_data := fund_data self; client_name := client_name self;
     _state := _state self; _trend := v |}.

Definition update (now : Z) (reply : http_result) : M (t * World) unit :=
  fun '(self, w) =>
    match EastmoneyData.update now reply (fund_data self, w) with
    | (Exc e, (fd, w1)) => (Exc e, (set_fund_data self fd, w1))
    | (Val _, (fd, w1)) =>
        let self := set_fund_data self fd in
        match EastmoneyData.data fd with
        | None => (Val tt, (self, w1))
        | Some d =>
            let est_nav := est_nav d in
            let self := set_state self (EstNav.enav est_nav) in
            match py_float (EstNav.enav_growth est_nav) w1 with
            | (Exc e, w2) => (Exc e, (self, w2))
            | (Val growth, w2) =>
                if PyStr.gt0 growth then (Val tt, (set_trend self 1%Z, w2))
                else if PyStr.lt0 growth then (Val tt, (set_trend self (-1)%Z, w2))
                else (Val tt, (set_trend self 0%Z, w2))
            end
        end
    end.

End EastmoneySensor.

(* ================================================================== *)
(** ** [setup_platform] *)
(* ================================================================== *)

Record Config : Type := {
  CONF_FUND_ID : string;
  CONF_NAME : string;
  CONF_UPDATE_INTERVAL : Z
}.

(** The host's side of [add_devices]: the calls it has received, oldest
    first, each with its list of entities and its [update_before_add]
    flag. *)
Definition Host : Type := list (list EastmoneySensor.t * bool).

Definition add_devices (sensors : list EastmoneySensor.t) (update_before_add : bool)
    (h : Host) : Host :=
  (h ++ [(sensors, update_before_add)])%list.

(** Returns [Some false] for [return False] and [None] when the function
    falls off its end. *)
Definition setup_platform (now : Z) (reply : http_result) (config : Config)
    : M (World * Host) (option bool) :=
  fun '(w, h) =>
    let fund_id := CONF_FUND_ID config in
    let name := CONF_NAME config in
    let interval := CONF_UPDATE_INTERVAL config in
    let fund_data := EastmoneyData.__init__ fund_id interval in
    match EastmoneyData.update now reply (fund_data, w) with
    | (Exc e, (_, w1)) => (Exc e, (w1, h))
    | (Val _, (fund_data, w1)) =>
        (* If connection failed don't setup platform. *)
        if EastmoneyData.is_None (EastmoneyData.data fund_data)
        then (Val (Some false), (w1, h))
        else
          let sensors := [EastmoneySensor.__init__ fund_data name] in
          (Val None, (w1, add_devices sensors true h))
    end.

(* ================================================================== *)
(** ** Sample pages *)
(* ================================================================== *)

Module Fixture.

Import Soup.

Definition span_id (i : string) (s : string) : node :=
  Tag "span" (Some i) [] [Text s].

Definition span_class (cls : list string) (s : string) : node :=
  Tag "span" None cls [Text s].

Definition opt_span (i : string) (s : option string) : list node :=
  match s with
  | Some s => [span_id i s]
  | None => []
  end.

Definition green (size : string) : list string := [size; "ui-color-green"; "ui-num"].
Definition red (size : string) : list string := [size; "ui-color-red"; "ui-num"].

(** The estimate block: [<dl class="dataItem01">] with the time in its
    [<dt>] and three [<dd>]; the first holds the spans found by id. *)
Definition est_region (gztime gsz gszze gszzl : option string)
    (month year : list node) : node :=
  Tag "dl" None ["dataItem01"]
    [ Tag "dt" None [] (Text "Estimate" :: opt_span "gz_gztime" gztime);
      Tag "dd" None ["dataNums"]
        (opt_span "gz_gsz" gsz ++ opt_span "gz_gszze" gszze
         ++ opt_span "gz_gszzl" gszzl)%list;
      Tag "dd" None [] (Text "1 month: " :: month);
      Tag "dd" None [] (Text "1 year: " :: year) ].

(** The settled block: [<dl class="dataItem02">] with the date in the
    text of its [<dt>] and three [<dd>]. *)
Definition settled_region (dt : string) (dd0 dd1 dd2 : list node) : node :=
  Tag "dl" None ["dataItem02"]
    [ Tag "dt" None [] [Text dt];
      Tag "dd" None ["dataNums"] dd0;
      Tag "dd" None [] (Text "3 months: " :: dd1);
      Tag "dd" None [] (Text "3 years: " :: dd2) ].

Definition page (title : string) (regions : list node) : node :=
  Tag "[document]" None []
    [ Tag "div" None ["fundDetail-tit"]
        [ Tag "div" None [] [Text title]; Text ")" ];
      Tag "div" None ["fundInfoItem"]
        [ Tag "div" None ["dataOfFund"] regions ] ].

Definition est_ok : node :=
  est_region (Some "(23-05-10 15:00)") (Some "1.234") (Some "0.0069")
    (Some "-0.56%")
    [span_class (red "ui-font-middle") "1.20%"]
    [span_class (green "ui-font-middle") "-3.40%"].

Definition settled_ok : node :=
  settled_region "Net value (2023-5-9)"
    [span_class (red "ui-font-large") "1.200";
     span_class (red "ui-font-middle") "0.50%"]
    [span_class (green "ui-font-middle") "-2.10%"]
    [span_class (red "ui-font-middle") "12.00%"].

(** A complete page for fund [000001]. *)
Definition page_ok : node := page "ABC Fund(000001" [est_ok; settled_ok].

(** The same page without the settled block. *)
Definition page_no_settled : node := page "ABC Fund(000001" [est_ok].

(** The settled block's [<dt>] carries no date. *)
Definition page_no_date : node :=
  page "ABC Fund(000001"
    [est_ok;
     settled_region "Net value"
       [span_class (red "ui-font-large") "1.200"] [] []].

(** Value, time and a non-negative rate, but no [gz_gszze] element. *)
Definition page_no_growth : node :=
  page "ABC Fund(000001"
    [est_region (Some "(23-05-10 15:00)") (Some "1.234") None (Some "0.56%") [] [];
     settled_ok].

(** The estimate block of the sign-correction examples. *)
Definition est_signed (rate : string) : node :=
  est_region (Some "(23-05-10 15:00)") (Some "1.234") (Some "5") (Some rate) [] [].

(** A settled block whose trailing figures carry the other colour. *)
Definition settled_swapped : node :=
  settled_region "Net value (2023-5-9)"
    [span_class (green "ui-font-large") "1.200"]
    [span_class (red "ui-font-middle") "2.10%"]
    [span_class (green "ui-font-middle") "-12.00%"].

Definition w0 : World := {| w_log := []; w_requests := [] |}.

Definition fresh : EastmoneyData.t := EastmoneyData.__init__ "000001" 900.

(** What [_analyze] makes of [page_ok]. *)
Definition snap_ok : Snapshot :=
  {| est_nav :=
       {| EstNav.enav_time := Some "23-05-10 15:00";
          EstNav.enav := Some "1.234";
          EstNav.enav_growth := Some "-0.0069";
          EstNav.enav_rate := Some "-0.56%";
          EstNav.rct_1month := Some "1.20%";
          EstNav.rct_1year := Some "-3.40%" |};
     nav :=
       {| Nav.nav_date := Some "2023-5-9";
          Nav.nav := Some "1.200";
          Nav.nav_rate := Some "0.50%";
          Nav.rct_3month := Some "-2.10%";
          Nav.rct_3year := Some "12.00%" |};
     last_update := Some "23-05-10 15:00" |}.

(** The fetcher after one successful poll of [page_ok] at time 0. *)
Definition polled : EastmoneyData.t :=
  fst (snd (EastmoneyData.update 0 (Response page_ok) (fresh, w0))).

(** Pages whose estimate rises, and stays level. *)
Definition page_up : node :=
  page "ABC Fund(000001"
    [est_region (Some "(23-05-10 15:00)") (Some "1.234") (Some "0.0069")
       (Some "0.56%") [] [];
     settled_ok].

Definition page_flat : node :=
  page "ABC Fund(000001"
    [est_region (Some "(23-05-10 15:00)") (Some "1.234") (Some "0.0000")
       (Some "0.00%") [] [];
     settled_ok].

(** A fetcher configured for another fund. *)
Definition other : EastmoneyData.t := EastmoneyData.__init__ "000002" 900.

(** What [_get_estnav] makes of [est_signed "-1.2%"]. *)
Definition est_neg : EstNav.t :=
  {| EstNav.enav_time := Some "23-05-10 15:00";
     EstNav.enav := Some "1.234";
     EstNav.enav_growth := Some "-5";
     EstNav.enav_rate := Some "-1.2%";
     EstNav.rct_1month := None;
     EstNav.rct_1year := None |}.

(** What [_get_estnav] makes of [est_signed "+1.2%"]. *)
Definition est_pos : EstNav.t :=
  {| EstNav.enav_time := Some "23-05-10 15:00";
     EstNav.enav := Some "1.234";
     EstNav.enav_growth := Some "5";
     EstNav.enav_rate := Some "+1.2%";
     EstNav.rct_1month := None;
     EstNav.rct_1year := None |}.

(** What [_get_nav] makes of [settled_swapped]. *)
Definition nav_swapped : Nav.t :=
  {| Nav.nav_date := Some "2023-5-9";
     Nav.nav := Some "1.200";
     Nav.nav_rate := None;
     Nav.rct_3month := None;
     Nav.rct_3year := None |}.

Definition config : Config :=
  {| CONF_FUND_ID := "000001"; CONF_NAME := "Fund"; CONF_UPDATE_INTERVAL := 900 |}.

End Fixture.

(* ================================================================== *)
(** ** The spec's wording of two lookups *)
(* ================================================================== *)

Module Spec.

Import Soup.

(** Follows the spec's words, not the code: "split its text on the first
    [(] character into two parts".  [None] when the character does not
    occur. *)
Fixpoint split_first (sep : ascii) (s : string) : option (string * string) :=
  match s with
  | EmptyString => None
  | String c r =>
      if Ascii.eqb c sep then Some (EmptyString, r)
      else match split_first sep r with
           | Some (a, b) => Some (String c a, b)
           | None => None
           end
  end.

(** Follows the spec's words, not the code: a figure is "selected by one
    of two mutually exclusive visual markers ... absence of both means
    the field is unset", an either-or lookup and not a fallback chain. *)
Definition either_or (n : node) (name : string) (pos neg : attr_filter)
    : option node :=
  match find n name pos, find n name neg with
  | Some x, None => Some x
  | None, Some y => Some y
  | _, _ => None
  end.

(** A node that carries one of the two colour markers among the values
    of its [class] attribute. *)
Definition has_marker (n : node) : bool :=
  match n with
  | Text _ => false
  | Tag _ _ classes _ =>
      existsb (String.eqb "ui-color-green") classes
      || existsb (String.eqb "ui-color-red") classes
  end.

(** The text of the element [_get_fund_tit] splits. *)
Definition title_text (soup : node) : option string :=
  match find soup "div" (Class_ "fundDetail-tit") with
  | None => None
  | Some fund_tit => option_map text (find fund_tit "div" NoAttr)
  end.

End Spec.

(* ================================================================== *)
(** ** The invariant of the held snapshot *)
(* ================================================================== *)

(** The four mandatory fields are strings and [last_update] repeats the
    estimate time. *)
Definition complete (s : Snapshot) : Prop :=
  (exists v, EstNav.enav (est_nav s) = Some v)
  /\ (exists t, EstNav.enav_time (est_nav s) = Some t /\ last_update s = Some t)
  /\ (exists v, Nav.nav (nav s) = Some v)
  /\ (exists d, Nav.nav_date (nav s) = Some d).

Definition data_ok (self : EastmoneyData.t) : Prop :=
  match EastmoneyData.data self with
  | None => True
  | Some s => complete s
  end.

(** A computation on the world that issues no request. *)
Definition keeps_requests {A : Type} (m : M World A) : Prop :=
  forall w, w_requests (snd (m w)) = w_requests w.

(* ================================================================== *)
(** ** Sequences of polls and vocabulary for the statements *)
(* ================================================================== *)

Module Run.

(** The host calling [EastmoneyData.update] again and again, each call
    with its time and with the answer the network would give; a call
    that raises leaves the state it reached, and the host goes on. *)
Fixpoint polls (calls : list (Z * http_result))
    (s : EastmoneyData.t * World) : EastmoneyData.t * World :=
  match calls with
  | [] => s
  | (now, reply) :: rest => polls rest (snd (EastmoneyData.update now reply s))
  end.

(** What the calls of such a sequence returned or raised. *)
Fixpoint outcomes (calls : list (Z * http_result))
    (s : EastmoneyData.t * World) : list (res unit) :=
  match calls with
  | [] => []
  | (now, reply) :: rest =>
      fst (EastmoneyData.update now reply s)
      :: outcomes rest (snd (EastmoneyData.update now reply s))
  end.

(** A reply that stops the pipeline before the analysis: an exception of
    the [except] clause, or a page that fails the title check. *)
Definition stops_early (fund_id : string) (reply : http_result) : bool :=
  match reply with
  | Raises e => EastmoneyData.caught e
  | Response soup =>
      negb (EastmoneyData.tit_ok (EastmoneyData._get_fund_tit soup) fund_id)
  end.

(** The same for [EastmoneySensor.update]. *)
Fixpoint entity_polls (calls : list (Z * http_result))
    (s : EastmoneySensor.t * World) : EastmoneySensor.t * World :=
  match calls with
  | [] => s
  | (now, reply) :: rest =>
      entity_polls rest (snd (EastmoneySensor.update now reply s))
  end.

End Run.

Module Str.

(** [c in s]. *)
Fixpoint occurs (c : ascii) (s : string) : bool :=
  match s with
  | EmptyString => false
  | String a r => Ascii.eqb a c || occurs c r
  end.

Fixpoint all_digits (s : string) : bool :=
  match s with
  | EmptyString => true
  | String a r => PyStr.is_digit a && all_digits r
  end.

(** [c * n]. *)
Fixpoint replicate (n : nat) (c : ascii) : string :=
  match n with
  | O => EmptyString
  | S n => String c (replicate n c)
  end.

(** [s.startswith(c)] and [s.endswith(c)] for one character. *)
Definition starts_with (c : ascii) (s : string) : bool :=
  match s with
  | EmptyString => false
  | String a _ => Ascii.eqb a c
  end.

Fixpoint ends_with (c : ascii) (s : string) : bool :=
  match s with
  | EmptyString => false
  | String a r =>
      match r with
      | EmptyString => Ascii.eqb a c
      | _ => ends_with c r
      end
  end.

Definition starts_with_digit (s : string) : bool :=
  match s with
  | EmptyString => false
  | String a _ => PyStr.is_digit a
  end.

(** A text of the form [YYYY-M-D] with one or two digits for the month
    and for the day. *)
Definition date_shape (d : string) : Prop :=
  exists y m dd,
    d = y ++ "-" ++ m ++ "-" ++ dd
    /\ String.length y = 4%nat /\ all_digits y = true
    /\ (String.length m = 1%nat \/ String.length m = 2%nat)
    /\ all_digits m = true
    /\ (String.length dd = 1%nat \/ String.length dd = 2%nat)
    /\ all_digits dd = true.

(** A numeral written without sign: its first character is a digit or
    the decimal point. *)
Definition unsigned (s : string) : bool :=
  match s with
  | EmptyString => false
  | String a _ => PyStr.is_digit a || Ascii.eqb a "."%char
  end.

(** A text that begins with a sign. *)
Definition signed (s : string) : bool :=
  match s with
  | EmptyString => false
  | String a _ => Ascii.eqb a "-"%char || Ascii.eqb a "+"%char
  end.

End Str.

(** The lines [_analyze] and the functions it calls can log. *)
Definition msg_fundInfoItem : string := "Element 'div,class_=fundInfoItem' not found.".
Definition msg_dataOfFund : string := "Element 'div,class_=dataOfFund' not found.".
Definition msg_dataItem : string :=
  "Element 'div,class_=dataItem01|dataItem02' not found.".
Definition msg_dd : string := "Element 'dd' error.".


(** A computation that leaves the world as it found it. *)
Definition keeps_world {A : Type} (m : M World A) : Prop :=
  forall w, snd (m w) = w.

(** A computation that raises nothing but the listed exceptions. *)
Definition raises_only {A : Type} (es : list exn) (m : M World A) : Prop :=
  forall w e, fst (m w) = Exc e -> In e es.

(** Pages for the sign of the change. *)
Module Fixture2.

Import Soup.

(** The change already carries its sign in the markup. *)
Definition page_signed_change : node :=
  Fixture.page "ABC Fund(000001"
    [Fixture.est_region (Some "(23-05-10 15:00)") (Some "1.234")
       (Some "-0.0069") (Some "-0.56%") [] [];
     Fixture.settled_ok].

Definition snap_signed_change : Snapshot :=
  {| est_nav :=
       {| EstNav.enav_time := Some "23-05-10 15:00";
          EstNav.enav := Some "1.234";
          EstNav.enav_growth := Some "--0.0069";
          EstNav.enav_rate := Some "-0.56%";
          EstNav.rct_1month := None;
          EstNav.rct_1year := None |};
     nav := nav Fixture.snap_ok;
     last_update := Some "23-05-10 15:00" |}.

(** The fetcher after one poll of that page at time 0. *)
Definition polled_signed_change : EastmoneyData.t :=
  fst (snd (EastmoneyData.update 0 (Response page_signed_change)
              (Fixture.fresh, Fixture.w0))).

End Fixture2.

(** The keys of the attribute dictionary of an entity with a snapshot. *)
Definition attribute_keys : list string :=
  [ "attribution"; "est growth"; "est growth rate"; "recent 1 month";
    "recent 1 year"; "last trading day"; "last nav"; "last growth rate" ].

(* ================================================================== *)
(** ** Properties *)
(* ================================================================== *)

(** *** The string operations on sample inputs *)

Example split_title : PyStr.split "("%char "ABC Fund(000001" = ["ABC Fund"; "000001"].
Proof. reflexivity. Qed.

Example strip_time : PyStr.rstrip ")"%char (PyStr.lstrip "("%char "(17-08-31 15:00)") = "17-08-31 15:00".
Proof. reflexivity. Qed.

Example date_found : PyStr.first_date "Net value (2023-5-9)" = Some "2023-5-9".
Proof. reflexivity. Qed.

Example date_two_digits : PyStr.first_date "x 2017-08-312" = Some "2017-08-31".
Proof. reflexivity. Qed.

Example date_missing : PyStr.first_date "Net value" = None.
Proof. reflexivity. Qed.

Example float_rate_neg : option_map PyStr.lt0 (PyStr.parse_float (PyStr.drop_last "-1.2%")) = Some true.
Proof. vm_compute. reflexivity. Qed.

Example float_rate_pos : option_map PyStr.lt0 (PyStr.parse_float (PyStr.drop_last "+1.2%")) = Some false.
Proof. vm_compute. reflexivity. Qed.

Example float_neg_zero : option_map PyStr.lt0 (PyStr.parse_float "-0.00") = Some false.
Proof. vm_compute. reflexivity. Qed.

Example float_exp : PyStr.parse_float " 1.5e-3 " = Some (PyStr.FDec false 15 (-4)).
Proof. vm_compute. reflexivity. Qed.

Example float_bad : PyStr.parse_float "--" = None.
Proof. vm_compute. reflexivity. Qed.

(** The no-break space and the next-line character count as whitespace
    around a numeral; the separators 28 to 31 do not. *)
Example float_nbsp :
  PyStr.parse_float (String (ascii_of_nat 160) "-1.2")
  = Some (PyStr.FDec true 12 (-1))
  /\ PyStr.parse_float (String (ascii_of_nat 133) "5") = Some (PyStr.FDec false 5 0)
  /\ PyStr.parse_float ("5" ++ String (ascii_of_nat 160) "")
     = Some (PyStr.FDec false 5 0).
Proof. vm_compute. repeat split. Qed.

Example float_separators :
  PyStr.parse_float (String (ascii_of_nat 28) "5") = None
  /\ PyStr.parse_float ("5" ++ String (ascii_of_nat 31) "") = None
  /\ PyStr.parse_float (String (ascii_of_nat 29) "-1.2") = None
  /\ PyStr.parse_float (String (ascii_of_nat 160) (String (ascii_of_nat 28) "5"))
     = None.
Proof. vm_compute. repeat split. Qed.

Example float_ascii_space :
  PyStr.parse_float (String (ascii_of_nat 9) ("5" ++ String (ascii_of_nat 13) " "))
  = Some (PyStr.FDec false 5 0).
Proof. vm_compute. reflexivity. Qed.

(** *** [split] against the spec's split at the first separator *)

Lemma split_nonempty (sep : ascii) (s : string) : PyStr.split sep s <> [].
Proof.
  destruct s as [|c r]; simpl; [discriminate|].
  destruct (Ascii.eqb c sep); [discriminate|].
  destruct (PyStr.split sep r); discriminate.
Qed.

(** A split with a single part met no separator. *)
Lemma split_single (sep : ascii) (s b : string) :
  PyStr.split sep s = [b] -> b = s /\ Spec.split_first sep s = None.
Proof.
  revert b; induction s as [|c r IH]; simpl; intros b H.
  - inversion H; auto.
  - destruct (Ascii.eqb c sep).
    + inversion H as [[Hb Hr]]. exfalso. exact (split_nonempty _ _ Hr).
    + destruct (PyStr.split sep r) as [|p ps] eqn:E.
      * exfalso. exact (split_nonempty _ _ E).
      * inversion H; subst. destruct (IH p eq_refl) as [-> ->]. auto.
Qed.

(** A split with exactly two parts cut the text at its first (and only)
    separator. *)
Lemma split_two (sep : ascii) (s a b : string) :
  PyStr.split sep s = [a; b] -> Spec.split_first sep s = Some (a, b).
Proof.
  revert a; induction s as [|c r IH]; simpl; intros a H.
  - discriminate.
  - destruct (Ascii.eqb c sep).
    + inversion H as [[Ha Hr]]. destruct (split_single _ _ _ Hr) as [-> _].
      reflexivity.
    + destruct (PyStr.split sep r) as [|p ps] eqn:E.
      * discriminate.
      * inversion H; subst. rewrite (IH p eq_refl). reflexivity.
Qed.

(** *** Shape of the results of the extraction functions *)

Section Extraction.

Import Soup EastmoneyData.

Lemma is_None_false {A : Type} (x : option A) :
  is_None x = false -> exists a, x = Some a.
Proof. destruct x; [eauto | discriminate]. Qed.

(** What a successful [_get_estnav] has read, and where. *)
Lemma _get_estnav_inv (estnav_data : node) (w w' : World) (d : EstNav.t) :
  _get_estnav estnav_data w = (Val (Some d), w') ->
  exists dd0 dd1 dd2 time value rate f,
    find_all estnav_data "dd" NoAttr = [dd0; dd1; dd2]
    /\ option_map (fun x => PyStr.rstrip ")"%char (PyStr.lstrip "("%char (text x)))
         (find estnav_data "span" (Id "gz_gztime")) = Some time
    /\ text_of (find dd0 "span" (Id "gz_gsz")) = Some value
    /\ text_of (find dd0 "span" (Id "gz_gszzl")) = Some rate
    /\ PyStr.parse_float (PyStr.drop_last rate) = Some f
    /\ (if PyStr.lt0 f
        then exists g, text_of (find dd0 "span" (Id "gz_gszze")) = Some g
                       /\ EstNav.enav_growth d = Some ("-" ++ g)
        else EstNav.enav_growth d = text_of (find dd0 "span" (Id "gz_gszze")))
    /\ EstNav.enav_time d = Some time
    /\ EstNav.enav d = Some value
    /\ EstNav.enav_rate d = Some rate
    /\ EstNav.rct_1month d
       = text_of (find_or dd1 "span" (Class_ green_middle) (Class_ red_middle))
    /\ EstNav.rct_1year d
       = text_of (find_or dd2 "span" (Class_ green_middle) (Class_ red_middle))
    /\ w' = w.
Proof.
  unfold _get_estnav. intros H.
  destruct (find_all estnav_data "dd" NoAttr) as [|dd0 [|dd1 [|dd2 [|? ?]]]];
    try (unfold _LOGGER_error in H; discriminate).
  destruct (is_None (text_of (find dd0 "span" (Id "gz_gsz")))) eqn:Ev;
    [simpl in H; unfold ret in H; discriminate|].
  destruct (is_None (option_map _ (find estnav_data "span" (Id "gz_gztime")))) eqn:Et;
    [simpl in H; unfold ret in H; discriminate|].
  simpl orb in H. cbv iota in H.
  apply is_None_false in Ev, Et. destruct Ev as [value Ev], Et as [time Et].
  destruct (text_of (find dd0 "span" (Id "gz_gszzl"))) as [rate|] eqn:Er;
    cbv beta iota delta [bind py_slice_0_m1 py_float ret raise] in H;
    [|discriminate].
  destruct (PyStr.parse_float (PyStr.drop_last rate)) as [f|] eqn:Ef;
    [|discriminate].
  exists dd0, dd1, dd2, time, value, rate, f.
  destruct (PyStr.lt0 f) eqn:El.
  - destruct (text_of (find dd0 "span" (Id "gz_gszze"))) as [g|] eqn:Eg;
      cbv beta iota delta [py_minus_concat ret raise] in H; [|discriminate].
    inversion H; subst; clear H. simpl.
    rewrite Ev, Et. repeat split; eauto.
  - inversion H; subst; clear H. simpl.
    rewrite Ev, Et. repeat split; eauto.
Qed.

(** What a successful [_get_nav] has read, and where. *)
Lemma _get_nav_inv (nav_data : node) (w w' : World) (n : Nav.t) :
  _get_nav nav_data w = (Val (Some n), w') ->
  exists dt dd0 dd1 dd2 date value,
    find nav_data "dt" NoAttr = Some dt
    /\ find_all nav_data "dd" NoAttr = [dd0; dd1; dd2]
    /\ PyStr.first_date (text dt) = Some date
    /\ text_of (find_or dd0 "span" (Class_ green_large) (Class_ red_large)) = Some value
    /\ Nav.nav_date n = Some date
    /\ Nav.nav n = Some value
    /\ Nav.nav_rate n
       = text_of (find_or dd0 "span" (Class_ green_middle) (Class_ red_middle))
    /\ Nav.rct_3month n = text_of (find dd1 "span" (Class_ green_middle))
    /\ Nav.rct_3year n = text_of (find dd2 "span" (Class_ red_middle))
    /\ w' = w.
Proof.
  unfold _get_nav. intros H.
  destruct (find_all nav_data "dd" NoAttr) as [|dd0 [|dd1 [|dd2 [|? ?]]]];
    try (unfold _LOGGER_error in H; discriminate).
  unfold bind in H.
  destruct (find nav_data "dt" NoAttr) as [dt|] eqn:Edt.
  - unfold py_findall_0 in H.
    destruct (PyStr.first_date (text dt)) as [date|] eqn:Ed;
      [|unfold raise in H; discriminate].
    unfold ret at 1 in H.
    destruct (is_None (text_of (find_or dd0 "span" (Class_ green_large) (Class_ red_large))))
      eqn:Ev; [simpl in H; unfold ret in H; discriminate|].
    simpl in H. unfold ret in H. inversion H; subst; clear H.
    apply is_None_false in Ev. destruct Ev as [value Ev].
    exists dt, dd0, dd1, dd2, date, value. simpl. rewrite Ev.
    repeat split; auto.
  - unfold ret at 1 in H.
    rewrite orb_true_r in H. unfold ret in H. discriminate.
Qed.

(** [_analyze] returns a dictionary only out of two successful
    extractions, and logs nothing then. *)
Lemma _analyze_inv (soup : node) (w w' : World) (s : Snapshot) :
  _analyze soup w = (Val (Some s), w') ->
  exists data_item_01 data_item_02,
    _get_estnav data_item_01 w = (Val (Some (est_nav s)), w)
    /\ _get_nav data_item_02 w = (Val (Some (nav s)), w)
    /\ last_update s = EstNav.enav_time (est_nav s)
    /\ w' = w.
Proof.
  unfold _analyze. intros H.
  destruct (find soup "div" (Class_ "fundInfoItem")) as [fii|];
    [|unfold _LOGGER_error in H; discriminate].
  destruct (find fii "div" (Class_ "dataOfFund")) as [fd|];
    [|unfold _LOGGER_error in H; discriminate].
  destruct (find fd "dl" (Class_ "dataItem01")) as [d1|];
    [|unfold _LOGGER_error in H; discriminate].
  destruct (find fd "dl" (Class_ "dataItem02")) as [d2|];
    [|unfold _LOGGER_error in H; discriminate].
  unfold bind in H.
  destruct (_get_estnav d1 w) as [[[e|]|x] w1] eqn:E1; try discriminate.
  - destruct (_get_nav d2 w1) as [[[n|]|x] w2] eqn:E2; try discriminate;
      unfold ret in H; try discriminate.
    inversion H; subst; clear H. simpl.
    pose proof (_get_estnav_inv _ _ _ _ E1) as (?&?&?&?&?&?&?&I1).
    assert (w1 = w) by (decompose [and] I1; assumption). subst w1.
    pose proof (_get_nav_inv _ _ _ _ E2) as (?&?&?&?&?&?&I2).
    assert (w' = w) by (decompose [and] I2; assumption). subst w'.
    exists d1, d2. auto.
  - destruct (_get_nav d2 w1) as [[[n|]|x] w2] eqn:E2; try discriminate;
      unfold ret in H; discriminate.
Qed.

End Extraction.

(** *** The fetch pipeline past the title check *)

Section Pipeline.

Import Soup EastmoneyData.

(** [_update] on a response, spelled out: the request is recorded, and
    the title check decides between the analysis and the error line. *)
Lemma _update_response (self : t) (w : World) (soup : node) :
  _update (Response soup) (self, w) =
  let w1 := note_request (url_of (fund_id self)) w in
  if tit_ok (_get_fund_tit soup) (fund_id self) then
    match _analyze soup w1 with
    | (Val d, w2) => (Val tt, (set_data self d, w2))
    | (Exc e, w2) => (Exc e, (self, w2))
    end
  else (Val tt, (self, log_line ("Invalid fund id: " ++ fund_id self ++ ".") w1)).
Proof.
  unfold _update, requests_get. cbv zeta.
  destruct (tit_ok (_get_fund_tit soup) (fund_id self)); [|reflexivity].
  unfold bind, on_world, assign_data.
  destruct (_analyze soup _) as [[d|e] w2]; reflexivity.
Qed.

(** An absent estimate or settled block makes [_analyze] return [None]
    after one error line. *)
Lemma _analyze_region_absent (soup fund_info_item fund_data : node) (w : World) :
  find soup "div" (Class_ "fundInfoItem") = Some fund_info_item ->
  find fund_info_item "div" (Class_ "dataOfFund") = Some fund_data ->
  find fund_data "dl" (Class_ "dataItem01") = None
  \/ find fund_data "dl" (Class_ "dataItem02") = None ->
  _analyze soup w
  = (Val None,
     log_line "Element 'div,class_=dataItem01|dataItem02' not found." w).
Proof.
  intros H1 H2 H3. unfold _analyze. rewrite H1, H2.
  destruct H3 as [-> | ->].
  - reflexivity.
  - destruct (find fund_data "dl" (Class_ "dataItem01")); reflexivity.
Qed.




(** C2, the code at the failing input.  The page has the right title,
    both blocks and three [dd] items in each, but the text of the settled
    block's [dt] holds no date: [re.findall(...)[0]] raises [IndexError],
    nothing is logged, and the exception leaves [update]. *)
Theorem update_raises_on_unmatched_date :
  PyStr.first_date "Net value" = None
  /\ fst (update 0 (Response Fixture.page_no_date) (Fixture.fresh, Fixture.w0))
     = Exc IndexError
  /\ w_log (snd (snd (update 0 (Response Fixture.page_no_date)
                        (Fixture.fresh, Fixture.w0)))) = [].
Proof. vm_compute. repeat split. Qed.

Lemma _analyze_complete (soup : node) (w w' : World) (s : Snapshot) :
  _analyze soup w = (Val (Some s), w') -> complete s.
Proof.
  intros H. apply _analyze_inv in H.
  destruct H as (d1 & d2 & He & Hn & Hl & _).
  apply _get_estnav_inv in He.
  destruct He as (?&?&?&time&value&?&?&_&_&_&_&_&_&Ht&Hv&_).
  apply _get_nav_inv in Hn.
  destruct Hn as (?&?&?&?&date&nv&_&_&_&_&Hd&Hnv&_).
  repeat split; eauto. exists time. rewrite Hl. auto.
Qed.

(** C8.  A dictionary returned by [_analyze] has its estimate value and
    time and its settled value and date set to strings, and its
    [last_update] is the estimate time. *)
Theorem snapshot_mandatory_fields (soup : node) (w w' : World) (s : Snapshot) :
  _analyze soup w = (Val (Some s), w') ->
  (exists v, EstNav.enav (est_nav s) = Some v)
  /\ (exists t, EstNav.enav_time (est_nav s) = Some t /\ last_update s = Some t)
  /\ (exists v, Nav.nav (nav s) = Some v)
  /\ (exists d, Nav.nav_date (nav s) = Some d)
  /\ last_update s = EstNav.enav_time (est_nav s).
Proof.
  intros H. destruct (_analyze_complete _ _ _ _ H) as (A & B & C & D).
  repeat split; try assumption.
  destruct B as (t & -> & ->). reflexivity.
Qed.

Lemma snapshot_mandatory_fields_witness :
  _analyze Fixture.page_ok Fixture.w0 = (Val (Some Fixture.snap_ok), Fixture.w0)
  /\ (exists v, EstNav.enav (est_nav Fixture.snap_ok) = Some v)
  /\ (exists t, EstNav.enav_time (est_nav Fixture.snap_ok) = Some t
                /\ last_update Fixture.snap_ok = Some t)
  /\ (exists v, Nav.nav (nav Fixture.snap_ok) = Some v)
  /\ (exists d, Nav.nav_date (nav Fixture.snap_ok) = Some d)
  /\ last_update Fixture.snap_ok = EstNav.enav_time (est_nav Fixture.snap_ok).
Proof.
  split; [vm_compute; reflexivity|].
  apply (snapshot_mandatory_fields Fixture.page_ok Fixture.w0 Fixture.w0).
  vm_compute; reflexivity.
Defined.

(** The invariant behind it: the fetcher never holds a dictionary with a
    mandatory field unset. *)
Lemma data_ok_init (fund_id : string) (internal : Z) :
  data_ok (__init__ fund_id internal).
Proof. exact I. Qed.

Lemma data_ok__update (reply : http_result) (self : t) (w : World) :
  data_ok self -> data_ok (fst (snd (_update reply (self, w)))).
Proof.
  intros H. destruct reply as [e|soup].
  - unfold _update, requests_get, on_world, _LOGGER_error.
    destruct (caught e); exact H.
  - rewrite _update_response. cbv zeta.
    destruct (tit_ok _ _); [|exact H].
    destruct (_analyze soup _) as [[[s|]|e] w2] eqn:E; simpl; try exact H.
    + unfold data_ok; simpl.
      exact (_analyze_complete _ _ _ _ E).
    + exact I.
Qed.

Lemma data_ok_update (now : Z) (reply : http_result) (self : t) (w : World) :
  data_ok self -> data_ok (fst (snd (update now reply (self, w)))).
Proof.
  intros H. unfold update.
  destruct (Throttle.throttled now (throttle self)); [exact H|].
  pose proof (data_ok__update reply self w H) as H'.
  destruct (_update reply (self, w)) as [r [self' w']]. exact H'.
Qed.

End Pipeline.

(** *** Sign correction and the selection of the figures *)

Section Figures.

Import Soup EastmoneyData.

Lemma find_or_either_or (x : node) (name : string) (f g : attr_filter) :
  find x name f = None \/ find x name g = None ->
  find_or x name f g = Spec.either_or x name f g.
Proof.
  unfold find_or, Spec.either_or.
  intros [H | H]; rewrite H.
  - destruct (find x name g); reflexivity.
  - destruct (find x name f); reflexivity.
Qed.

Lemma find_or_none (x : node) (name : string) (f g : attr_filter) :
  find x name f = None -> find x name g = None -> find_or x name f g = None.
Proof. unfold find_or. intros -> ->. reflexivity. Qed.

Lemma rate_minus_1_2 :
  PyStr.parse_float (PyStr.drop_last "-1.2%") = Some (PyStr.FDec true 12 (-1)).
Proof. vm_compute. reflexivity. Qed.

Lemma rate_plus_1_2 :
  PyStr.parse_float (PyStr.drop_last "+1.2%") = Some (PyStr.FDec false 12 (-1)).
Proof. vm_compute. reflexivity. Qed.

(** C3.  In a successful [_get_estnav] the rate is stored as read; the
    change read from [gz_gszze] gets one ["-"] in front exactly when
    [float(rate[0:-1]) < 0], and is stored as read otherwise: ["5"] with
    rate ["-1.2%"] is stored as ["-5"], with ["+1.2%"] as ["5"].  In a
    successful [_get_nav] every figure is stored as read. *)
Theorem sign_correction (estnav_data nav_data : node) (w w1 w2 : World)
    (d : EstNav.t) (n : Nav.t) :
  (_get_estnav estnav_data w = (Val (Some d), w1) ->
   exists dd0 dd1 dd2 rate f,
     find_all estnav_data "dd" NoAttr = [dd0; dd1; dd2]
     /\ text_of (find dd0 "span" (Id "gz_gszzl")) = Some rate
     /\ EstNav.enav_rate d = Some rate
     /\ PyStr.parse_float (PyStr.drop_last rate) = Some f
     /\ (PyStr.lt0 f = true ->
         exists g, text_of (find dd0 "span" (Id "gz_gszze")) = Some g
                   /\ EstNav.enav_growth d = Some ("-" ++ g))
     /\ (PyStr.lt0 f = false ->
         EstNav.enav_growth d = text_of (find dd0 "span" (Id "gz_gszze")))
     /\ (text_of (find dd0 "span" (Id "gz_gszze")) = Some "5" ->
         (rate = "-1.2%" -> EstNav.enav_growth d = Some "-5")
         /\ (rate = "+1.2%" -> EstNav.enav_growth d = Some "5")))
  /\ (_get_nav nav_data w = (Val (Some n), w2) ->
      exists dd0 dd1 dd2,
        find_all nav_data "dd" NoAttr = [dd0; dd1; dd2]
        /\ Nav.nav n
           = text_of (find_or dd0 "span" (Class_ green_large) (Class_ red_large))
        /\ Nav.nav_rate n
           = text_of (find_or dd0 "span" (Class_ green_middle) (Class_ red_middle))
        /\ Nav.rct_3month n = text_of (find dd1 "span" (Class_ green_middle))
        /\ Nav.rct_3year n = text_of (find dd2 "span" (Class_ red_middle))).
Proof.
  split; intros H.
  - apply _get_estnav_inv in H.
    destruct H as (dd0 & dd1 & dd2 & time & value & rate & f & Hdd & _ & _ & Hr
                   & Hf & Hg & _ & _ & Hrate & _).
    exists dd0, dd1, dd2, rate, f.
    repeat (split; [assumption|]).
    split; [|split].
    + intros Hl. rewrite Hl in Hg. exact Hg.
    + intros Hl. rewrite Hl in Hg. exact Hg.
    + intros H5. split; intros ->.
      * rewrite rate_minus_1_2 in Hf. inversion Hf; subst f.
        change (PyStr.lt0 (PyStr.FDec true 12 (-1))) with true in Hg.
        destruct Hg as (g & Hg1 & Hg2). rewrite H5 in Hg1.
        inversion Hg1; subst g. exact Hg2.
      * rewrite rate_plus_1_2 in Hf. inversion Hf; subst f.
        change (PyStr.lt0 (PyStr.FDec false 12 (-1))) with false in Hg.
        rewrite Hg. exact H5.
  - apply _get_nav_inv in H.
    destruct H as (dt & dd0 & dd1 & dd2 & date & value & _ & Hdd & _ & Hv & _
                   & Hnv & Hr & H3m & H3y & _).
    exists dd0, dd1, dd2. rewrite Hnv, Hv. auto.
Qed.

Lemma sign_correction_witness :
  _get_estnav (Fixture.est_signed "-1.2%") Fixture.w0
  = (Val (Some Fixture.est_neg), Fixture.w0)
  /\ _get_nav Fixture.settled_swapped Fixture.w0
     = (Val (Some Fixture.nav_swapped), Fixture.w0)
  /\ (exists dd0 dd1 dd2 rate f,
        find_all (Fixture.est_signed "-1.2%") "dd" NoAttr = [dd0; dd1; dd2]
        /\ text_of (find dd0 "span" (Id "gz_gszzl")) = Some rate
        /\ EstNav.enav_rate Fixture.est_neg = Some rate
        /\ PyStr.parse_float (PyStr.drop_last rate) = Some f
        /\ (PyStr.lt0 f = true ->
            exists g, text_of (find dd0 "span" (Id "gz_gszze")) = Some g
                      /\ EstNav.enav_growth Fixture.est_neg = Some ("-" ++ g))
        /\ (PyStr.lt0 f = false ->
            EstNav.enav_growth Fixture.est_neg
            = text_of (find dd0 "span" (Id "gz_gszze")))
        /\ (text_of (find dd0 "span" (Id "gz_gszze")) = Some "5" ->
            (rate = "-1.2%" -> EstNav.enav_growth Fixture.est_neg = Some "-5")
            /\ (rate = "+1.2%" -> EstNav.enav_growth Fixture.est_neg = Some "5")))
  /\ (exists dd0 dd1 dd2,
        find_all Fixture.settled_swapped "dd" NoAttr = [dd0; dd1; dd2]
        /\ Nav.nav Fixture.nav_swapped
           = text_of (find_or dd0 "span" (Class_ green_large) (Class_ red_large))
        /\ Nav.nav_rate Fixture.nav_swapped
           = text_of (find_or dd0 "span" (Class_ green_middle) (Class_ red_middle))
        /\ Nav.rct_3month Fixture.nav_swapped
           = text_of (find dd1 "span" (Class_ green_middle))
        /\ Nav.rct_3year Fixture.nav_swapped
           = text_of (find dd2 "span" (Class_ red_middle))).
Proof.
  split; [vm_compute; reflexivity|].
  split; [vm_compute; reflexivity|].
  split.
  - apply (proj1 (sign_correction (Fixture.est_signed "-1.2%")
                    Fixture.settled_swapped Fixture.w0 Fixture.w0 Fixture.w0
                    Fixture.est_neg Fixture.nav_swapped)).
    vm_compute; reflexivity.
  - apply (proj2 (sign_correction (Fixture.est_signed "-1.2%")
                    Fixture.settled_swapped Fixture.w0 Fixture.w0 Fixture.w0
                    Fixture.est_neg Fixture.nav_swapped)).
    vm_compute; reflexivity.
Defined.

(** C4, as amended.  In the estimate block the value, the change and the
    rate are the texts of the elements with ids [gz_gsz], [gz_gszze] and
    [gz_gszzl] (the change with its sign correction); its two trailing
    figures, and the settled block's value and rate, are looked up by the
    green marker first and by the red marker when no green one is found.
    That lookup is the either-or lookup whenever at most one of the two
    markers is present, and gives [None] when neither is. *)
Theorem marker_lookup (estnav_data nav_data : node) (w w1 w2 : World)
    (d : EstNav.t) (n : Nav.t) :
  (_get_estnav estnav_data w = (Val (Some d), w1) ->
   exists dd0 dd1 dd2,
     find_all estnav_data "dd" NoAttr = [dd0; dd1; dd2]
     /\ EstNav.enav d = text_of (find dd0 "span" (Id "gz_gsz"))
     /\ EstNav.enav_rate d = text_of (find dd0 "span" (Id "gz_gszzl"))
     /\ (EstNav.enav_growth d = text_of (find dd0 "span" (Id "gz_gszze"))
         \/ exists g, text_of (find dd0 "span" (Id "gz_gszze")) = Some g
                      /\ EstNav.enav_growth d = Some ("-" ++ g))
     /\ EstNav.rct_1month d
        = text_of (find_or dd1 "span" (Class_ green_middle) (Class_ red_middle))
     /\ EstNav.rct_1year d
        = text_of (find_or dd2 "span" (Class_ green_middle) (Class_ red_middle)))
  /\ (_get_nav nav_data w = (Val (Some n), w2) ->
      exists dd0 dd1 dd2,
        find_all nav_data "dd" NoAttr = [dd0; dd1; dd2]
        /\ Nav.nav n
           = text_of (find_or dd0 "span" (Class_ green_large) (Class_ red_large))
        /\ Nav.nav_rate n
           = text_of (find_or dd0 "span" (Class_ green_middle) (Class_ red_middle)))
  /\ (forall (x : node) (name : string) (f g : attr_filter),
        (find x name f = None \/ find x name g = None ->
         find_or x name f g = Spec.either_or x name f g)
        /\ (find x name f = None -> find x name g = None ->
            find_or x name f g = None)).
Proof.
  split; [|split].
  - intros H. apply _get_estnav_inv in H.
    destruct H as (dd0 & dd1 & dd2 & time & value & rate & f & Hdd & _ & Hv & Hr
                   & _ & Hg & _ & Hval & Hrate & H1m & H1y & _).
    exists dd0, dd1, dd2. rewrite Hv, Hr.
    repeat (split; [assumption|]). split; [|split; assumption].
    destruct (PyStr.lt0 f); [right|left]; exact Hg.
  - intros H. apply _get_nav_inv in H.
    destruct H as (dt & dd0 & dd1 & dd2 & date & value & _ & Hdd & _ & Hv & _
                   & Hnv & Hr & _).
    exists dd0, dd1, dd2. rewrite Hnv, Hv. auto.
  - intros x name f g. split.
    + apply find_or_either_or.
    + apply find_or_none.
Qed.

Lemma marker_lookup_witness :
  _get_estnav Fixture.est_ok Fixture.w0
  = (Val (Some (est_nav Fixture.snap_ok)), Fixture.w0)
  /\ _get_nav Fixture.settled_ok Fixture.w0
     = (Val (Some (nav Fixture.snap_ok)), Fixture.w0)
  /\ (exists dd0 dd1 dd2,
        find_all Fixture.est_ok "dd" NoAttr = [dd0; dd1; dd2]
        /\ EstNav.enav (est_nav Fixture.snap_ok)
           = text_of (find dd0 "span" (Id "gz_gsz"))
        /\ EstNav.enav_rate (est_nav Fixture.snap_ok)
           = text_of (find dd0 "span" (Id "gz_gszzl"))
        /\ (EstNav.enav_growth (est_nav Fixture.snap_ok)
            = text_of (find dd0 "span" (Id "gz_gszze"))
            \/ exists g, text_of (find dd0 "span" (Id "gz_gszze")) = Some g
                         /\ EstNav.enav_growth (est_nav Fixture.snap_ok)
                            = Some ("-" ++ g))
        /\ EstNav.rct_1month (est_nav Fixture.snap_ok)
           = text_of (find_or dd1 "span" (Class_ green_middle) (Class_ red_middle))
        /\ EstNav.rct_1year (est_nav Fixture.snap_ok)
           = text_of (find_or dd2 "span" (Class_ green_middle) (Class_ red_middle)))
  /\ (exists dd0 dd1 dd2,
        find_all Fixture.settled_ok "dd" NoAttr = [dd0; dd1; dd2]
        /\ Nav.nav (nav Fixture.snap_ok)
           = text_of (find_or dd0 "span" (Class_ green_large) (Class_ red_large))
        /\ Nav.nav_rate (nav Fixture.snap_ok)
           = text_of (find_or dd0 "span" (Class_ green_middle) (Class_ red_middle))).
Proof.
  split; [vm_compute; reflexivity|].
  split; [vm_compute; reflexivity|].
  split.
  - apply (proj1 (marker_lookup Fixture.est_ok Fixture.settled_ok
                    Fixture.w0 Fixture.w0 Fixture.w0
                    (est_nav Fixture.snap_ok) (nav Fixture.snap_ok))).
    vm_compute; reflexivity.
  - apply (proj1 (proj2 (marker_lookup Fixture.est_ok Fixture.settled_ok
                    Fixture.w0 Fixture.w0 Fixture.w0
                    (est_nav Fixture.snap_ok) (nav Fixture.snap_ok)))).
    vm_compute; reflexivity.
Defined.

(** C4, as stated, fails twice.  The estimate figures are set on a block
    none of whose first [dd]'s elements carries a colour marker; and the
    settled three-month figure stays unset on a block where the either-or
    lookup finds the red marker. *)
Lemma either_or_markers_counterexample :
  ~ (forall (estnav_data : node) (w w' : World) (d : EstNav.t) (dd0 dd1 dd2 : node),
       _get_estnav estnav_data w = (Val (Some d), w') ->
       find_all estnav_data "dd" NoAttr = [dd0; dd1; dd2] ->
       forallb (fun x => negb (Spec.has_marker x)) (descendants dd0) = true ->
       EstNav.enav d = None /\ EstNav.enav_growth d = None
       /\ EstNav.enav_rate d = None)
  /\ ~ (forall (nav_data : node) (w w' : World) (n : Nav.t) (dd0 dd1 dd2 : node),
          _get_nav nav_data w = (Val (Some n), w') ->
          find_all nav_data "dd" NoAttr = [dd0; dd1; dd2] ->
          Nav.rct_3month n
          = text_of (Spec.either_or dd1 "span"
                       (Class_ green_middle) (Class_ red_middle))).
Proof.
  split; intros H.
  - destruct (H (Fixture.est_signed "+1.2%") Fixture.w0 Fixture.w0 Fixture.est_pos
                _ _ _ ltac:(vm_compute; reflexivity) ltac:(vm_compute; reflexivity)
                ltac:(vm_compute; reflexivity)) as [E _].
    discriminate E.
  - pose proof (H Fixture.settled_swapped Fixture.w0 Fixture.w0 Fixture.nav_swapped
                  _ _ _ ltac:(vm_compute; reflexivity)
                  ltac:(vm_compute; reflexivity)) as E.
    vm_compute in E. discriminate E.
Qed.

End Figures.

(** *** What a poll leaves alone *)

Section Frame.

Import Soup EastmoneyData.

(** Parsing never touches the list of requests. *)
Lemma keeps_ret {A : Type} (a : A) : keeps_requests (ret a).
Proof. intros w. reflexivity. Qed.

Lemma keeps_raise {A : Type} (e : exn) : keeps_requests (@raise World A e).
Proof. intros w. reflexivity. Qed.

Lemma keeps_log {A : Type} (msg : string) (a : A) :
  keeps_requests (_LOGGER_error msg a).
Proof. intros w. reflexivity. Qed.

Lemma keeps_bind {A B : Type} (m : M World A) (k : A -> M World B) :
  keeps_requests m -> (forall a, keeps_requests (k a)) ->
  keeps_requests (bind m k).
Proof.
  intros Hm Hk w. unfold bind. specialize (Hm w).
  destruct (m w) as [[a|e] w1]; simpl in *.
  - rewrite Hk. exact Hm.
  - exact Hm.
Qed.

Ltac keeps :=
  repeat first
    [ apply keeps_ret | apply keeps_raise | apply keeps_log
    | apply keeps_bind; [|intros ?]
    | match goal with
      | |- keeps_requests (match ?x with _ => _ end) => destruct x
      | |- keeps_requests (if ?b then _ else _) => destruct b
      end ].

Lemma _get_estnav_requests (estnav_data : node) :
  keeps_requests (_get_estnav estnav_data).
Proof.
  unfold _get_estnav, py_slice_0_m1, py_float, py_minus_concat. keeps.
Qed.

Lemma _get_nav_requests (nav_data : node) :
  keeps_requests (_get_nav nav_data).
Proof. unfold _get_nav, py_findall_0. keeps. Qed.

Lemma _analyze_requests (soup : node) : keeps_requests (_analyze soup).
Proof.
  unfold _analyze. keeps.
  - apply _get_estnav_requests.
  - apply _get_nav_requests.
Qed.

(** One run of [_update] issues exactly one request, to the fund's URL,
    and changes neither the identifier nor the throttle. *)
Lemma _update_frame (reply : http_result) (self : t) (w : World) :
  w_requests (snd (snd (_update reply (self, w))))
  = (w_requests w ++ [url_of (fund_id self)])%list
  /\ fund_id (fst (snd (_update reply (self, w)))) = fund_id self
  /\ throttle (fst (snd (_update reply (self, w)))) = throttle self.
Proof.
  destruct reply as [e|soup].
  - unfold _update, requests_get, on_world, _LOGGER_error.
    destruct (caught e); simpl; auto.
  - rewrite _update_response. cbv zeta.
    destruct (tit_ok _ _); [|simpl; auto].
    pose proof (_analyze_requests soup (note_request (url_of (fund_id self)) w)) as H.
    destruct (_analyze soup _) as [[d|e] w2]; simpl in *; auto.
Qed.

(** A throttled call is the identity on the fetcher and the world. *)
Lemma update_throttled (now : Z) (reply : http_result) (self : t) (w : World) :
  Throttle.throttled now (throttle self) = true ->
  update now reply (self, w) = (Val tt, (self, w)).
Proof. unfold update. intros ->. reflexivity. Qed.

(** A call that is not throttled runs [_update] once and records its
    own time. *)
Lemma update_runs (now : Z) (reply : http_result) (self : t) (w : World) :
  Throttle.throttled now (throttle self) = false ->
  fst (update now reply (self, w)) = fst (_update reply (self, w))
  /\ w_requests (snd (snd (update now reply (self, w))))
     = (w_requests w ++ [url_of (fund_id self)])%list
  /\ snd (snd (update now reply (self, w))) = snd (snd (_update reply (self, w)))
  /\ fund_id (fst (snd (update now reply (self, w)))) = fund_id self
  /\ data (fst (snd (update now reply (self, w))))
     = data (fst (snd (_update reply (self, w))))
  /\ throttle (fst (snd (update now reply (self, w))))
     = {| Throttle.min_time := Throttle.min_time (throttle self);
          Throttle.last_call := Some now |}.
Proof.
  unfold update. intros ->.
  destruct (_update_frame reply self w) as (Hr & Hf & Ht).
  destruct (_update reply (self, w)) as [r [self' w']]. simpl in *.
  rewrite Ht. unfold Throttle.stamp. repeat split; assumption.
Qed.

(** C5.  Of two [update] calls, the first of which is let through by the
    throttle: when the second comes less than the interval after the
    first, one request is issued in all, and the second call returns at
    once, leaving the fetcher (its snapshot included) and the world as
    the first call left them; when it comes more than the interval after
    the first, each call issues its request. *)
Theorem throttle_pair (self : t) (w : World) (t1 t2 : Z)
    (reply1 reply2 : http_result) :
  Throttle.throttled t1 (throttle self) = false ->
  let s1 := update t1 reply1 (self, w) in
  let s2 := update t2 reply2 (snd s1) in
  ((t2 - t1 < Throttle.min_time (throttle self))%Z ->
     w_requests (snd (snd s2)) = (w_requests w ++ [url_of (fund_id self)])%list
     /\ s2 = (Val tt, snd s1)
     /\ data (fst (snd s2)) = data (fst (snd s1)))
  /\ ((Throttle.min_time (throttle self) < t2 - t1)%Z ->
     w_requests (snd (snd s2))
     = (w_requests w ++ [url_of (fund_id self); url_of (fund_id self)])%list).
Proof.
  intros H1. cbv zeta.
  destruct (update_runs t1 reply1 self w H1) as (_ & Hr & _ & Hf & _ & Ht).
  destruct (update t1 reply1 (self, w)) as [r1 [self1 w1]]. cbn [fst snd] in *.
  split; intros Hlt.
  - assert (Hth : Throttle.throttled t2 (throttle self1) = true).
    { rewrite Ht. unfold Throttle.throttled. simpl. apply Z.ltb_lt. exact Hlt. }
    rewrite (update_throttled _ _ _ _ Hth). cbn [fst snd]. auto.
  - assert (Hth : Throttle.throttled t2 (throttle self1) = false).
    { rewrite Ht. unfold Throttle.throttled. simpl. apply Z.ltb_ge. lia. }
    destruct (update_runs t2 reply2 self1 w1 Hth) as (_ & Hr2 & _).
    rewrite Hr2, Hr, Hf, <- app_assoc. reflexivity.
Qed.

Lemma throttle_pair_witness :
  Throttle.throttled 0 (throttle Fixture.fresh) = false
  /\ (60 - 0 < Throttle.min_time (throttle Fixture.fresh))%Z
  /\ (Throttle.min_time (throttle Fixture.fresh) < 1000 - 0)%Z
  /\ w_requests (snd (snd (update 60 (Response Fixture.page_no_settled)
                             (snd (update 0 (Response Fixture.page_ok)
                                     (Fixture.fresh, Fixture.w0))))))
     = [url_of "000001"]
  /\ data (fst (snd (update 60 (Response Fixture.page_no_settled)
                       (snd (update 0 (Response Fixture.page_ok)
                               (Fixture.fresh, Fixture.w0))))))
     = Some Fixture.snap_ok
  /\ w_requests (snd (snd (update 1000 (Response Fixture.page_no_settled)
                             (snd (update 0 (Response Fixture.page_ok)
                                     (Fixture.fresh, Fixture.w0))))))
     = [url_of "000001"; url_of "000001"].
Proof.
  split; [reflexivity|]. split; [reflexivity|]. split; [reflexivity|].
  destruct (proj1 (throttle_pair Fixture.fresh Fixture.w0 0 60
                     (Response Fixture.page_ok) (Response Fixture.page_no_settled)
                     eq_refl) eq_refl) as (Hr & _ & Hd).
  split; [exact Hr|].
  split; [rewrite Hd; vm_compute; reflexivity|].
  exact (proj2 (throttle_pair Fixture.fresh Fixture.w0 0 1000
                  (Response Fixture.page_ok) (Response Fixture.page_no_settled)
                  eq_refl) eq_refl).
Defined.

End Frame.

(** *** The title check *)

Section Title.

Import Soup EastmoneyData.

Lemma _get_fund_tit_split (soup : node) :
  _get_fund_tit soup = option_map (PyStr.split "("%char) (Spec.title_text soup).
Proof.
  unfold _get_fund_tit, Spec.title_text.
  destruct (find soup "div" (Class_ "fundDetail-tit")) as [ft|]; [|reflexivity].
  destruct (find ft "div" NoAttr); reflexivity.
Qed.

(** The check passes exactly when the title text has a single ["("] and
    what follows it is the configured identifier. *)
Lemma tit_ok_iff (soup : node) (id : string) :
  tit_ok (_get_fund_tit soup) id = true <->
  exists t name, Spec.title_text soup = Some t
                 /\ PyStr.split "("%char t = [name; id].
Proof.
  rewrite _get_fund_tit_split. unfold tit_ok.
  destruct (Spec.title_text soup) as [t|]; simpl.
  - split.
    + intros H. apply andb_true_iff in H. destruct H as [Hl He].
      destruct (PyStr.split "("%char t) as [|a [|b [|c l]]] eqn:Es;
        simpl in Hl, He; try discriminate.
      apply String.eqb_eq in He. subst b. exists t, a. auto.
    + intros (t' & name & Ht & Hs). inversion Ht; subst t'. rewrite Hs.
      simpl. apply String.eqb_refl.
  - split; [discriminate|]. intros (t & name & Ht & _). discriminate.
Qed.

Lemma tit_ok_split_first (soup : node) (id : string) :
  tit_ok (_get_fund_tit soup) id = true ->
  exists t name, Spec.title_text soup = Some t
                 /\ Spec.split_first "("%char t = Some (name, id).
Proof.
  intros H. apply tit_ok_iff in H. destruct H as (t & name & Ht & Hs).
  exists t, name. split; [assumption|]. apply split_two. assumption.
Qed.

(** C7.  With [invalid] the outcome "error line logged, fetcher
    unchanged": an absent title gives [invalid]; a title whose part after
    the first ["("] is not the configured identifier (or that has no
    ["("]) gives [invalid]; and any other outcome, in particular the
    analysis being run and its result stored, occurs only when that
    second part is the configured identifier. *)
Theorem title_check (self : t) (w : World) (soup : node) :
  let w1 := note_request (url_of (fund_id self)) w in
  let invalid :=
    (Val tt, (self, log_line ("Invalid fund id: " ++ fund_id self ++ ".") w1)) in
  (Spec.title_text soup = None -> _update (Response soup) (self, w) = invalid)
  /\ (forall t,
        Spec.title_text soup = Some t ->
        (forall name id,
           Spec.split_first "("%char t = Some (name, id) -> id <> fund_id self) ->
        _update (Response soup) (self, w) = invalid)
  /\ (_update (Response soup) (self, w) <> invalid ->
      exists t name,
        Spec.title_text soup = Some t
        /\ Spec.split_first "("%char t = Some (name, fund_id self)
        /\ _update (Response soup) (self, w)
           = bind (on_world (_analyze soup)) assign_data (self, w1)).
Proof.
  cbv zeta.
  assert (Hfalse : tit_ok (_get_fund_tit soup) (fund_id self) = false ->
            _update (Response soup) (self, w)
            = (Val tt, (self, log_line ("Invalid fund id: " ++ fund_id self ++ ".")
                               (note_request (url_of (fund_id self)) w)))).
  { intros H. rewrite _update_response. cbv zeta. rewrite H. reflexivity. }
  split; [|split].
  - intros Hn. apply Hfalse.
    destruct (tit_ok _ _) eqn:E; [|reflexivity].
    apply tit_ok_split_first in E. destruct E as (t & name & Ht & _). congruence.
  - intros t Ht Hmis. apply Hfalse.
    destruct (tit_ok _ _) eqn:E; [|reflexivity].
    apply tit_ok_split_first in E. destruct E as (t' & name & Ht' & Hs).
    rewrite Ht in Ht'. inversion Ht'; subst t'.
    exfalso. exact (Hmis _ _ Hs eq_refl).
  - intros Hne.
    destruct (tit_ok (_get_fund_tit soup) (fund_id self)) eqn:E.
    + destruct (tit_ok_split_first _ _ E) as (t & name & Ht & Hs).
      exists t, name. repeat split; try assumption.
      unfold _update, requests_get. cbv zeta. rewrite E. reflexivity.
    + exfalso. apply Hne. apply Hfalse. reflexivity.
Qed.

Lemma title_check_witness :
  Spec.title_text Fixture.page_ok = Some "ABC Fund(000001"
  /\ Spec.split_first "("%char "ABC Fund(000001" = Some ("ABC Fund", "000001")
  /\ _update (Response Fixture.page_ok) (Fixture.other, Fixture.w0)
     = (Val tt,
        (Fixture.other,
         log_line "Invalid fund id: 000002."
           (note_request (url_of "000002") Fixture.w0))).
Proof.
  split; [reflexivity|]. split; [reflexivity|].
  apply (proj1 (proj2 (title_check Fixture.other Fixture.w0 Fixture.page_ok))
           "ABC Fund(000001").
  - reflexivity.
  - intros name id H. vm_compute in H. inversion H. discriminate.
Defined.

End Title.

(** *** The entity *)

Section Entity.

Import EastmoneySensor.

Lemma gt0_lt0_exclusive (f : PyStr.pyfloat) :
  PyStr.gt0 f = true -> PyStr.lt0 f = false.
Proof. destruct f as [|[]|[] m e]; simpl; intros H; try reflexivity; discriminate. Qed.

(** The sign tests on an integer numeral are those of the integer. *)
Lemma gt0_integer (neg : bool) (m : Z) :
  (0 <= m)%Z ->
  (PyStr.gt0 (PyStr.FDec neg m 0) = true <-> neg = false /\ (0 < m)%Z)
  /\ (PyStr.lt0 (PyStr.FDec neg m 0) = true <-> neg = true /\ (0 < m)%Z).
Proof.
  intros Hm. unfold PyStr.gt0, PyStr.lt0, PyStr.rounds_to_zero.
  change (0 <? 0)%Z with false. rewrite andb_false_l, orb_false_r.
  destruct neg; simpl; split; split.
  all: try (intros H; discriminate).
  all: try (intros [H _]; discriminate).
  all: try (intros H; split; [reflexivity|];
            apply negb_true_iff, Z.leb_gt in H; exact H).
  all: intros [_ H]; apply negb_true_iff, Z.leb_gt; exact H.
Qed.

(** C6.  When the fetcher's update leaves a snapshot whose change parses
    as a number, the entity's update returns normally, mirrors the
    estimate value, and sets the trend by the sign of the change: [1]
    (icon up) when positive, [-1] (icon down) when negative, [0] (icon
    neutral) otherwise.  A newly built entity shows the downward icon. *)
Theorem indicator_by_sign (self : t) (w w1 : World) (now : Z)
    (reply : http_result) (fd : EastmoneyData.t) (d : Snapshot)
    (g : string) (f : PyStr.pyfloat) :
  EastmoneyData.update now reply (fund_data self, w) = (Val tt, (fd, w1)) ->
  EastmoneyData.data fd = Some d ->
  EstNav.enav_growth (est_nav d) = Some g ->
  PyStr.parse_float g = Some f ->
  (exists self',
     update now reply (self, w) = (Val tt, (self', w1))
     /\ fund_data self' = fd
     /\ _state self' = EstNav.enav (est_nav d)
     /\ (PyStr.gt0 f = true ->
         _trend self' = 1%Z /\ icon self' = "mdi:trending-up")
     /\ (PyStr.lt0 f = true ->
         _trend self' = (-1)%Z /\ icon self' = "mdi:trending-down")
     /\ (PyStr.gt0 f = false -> PyStr.lt0 f = false ->
         _trend self' = 0%Z /\ icon self' = "mdi:trending-neutral"))
  /\ (forall s : t,
        (_trend s = 1%Z -> icon s = "mdi:trending-up")
        /\ (_trend s = (-1)%Z -> icon s = "mdi:trending-down")
        /\ (_trend s = 0%Z -> icon s = "mdi:trending-neutral"))
  /\ (forall (fund_data : EastmoneyData.t) (name : string),
        icon (__init__ fund_data name) = "mdi:trending-down").
Proof.
  intros Hu Hd Hg Hf. split; [|split].
  - unfold update. rewrite Hu, Hd. unfold py_float. rewrite Hg, Hf.
    unfold ret.
    destruct (PyStr.gt0 f) eqn:Egt.
    + eexists. split; [reflexivity|]. simpl.
      rewrite (gt0_lt0_exclusive f Egt).
      repeat split; auto; intros; discriminate.
    + destruct (PyStr.lt0 f) eqn:Elt.
      * eexists. split; [reflexivity|]. simpl.
        repeat split; auto; intros; discriminate.
      * eexists. split; [reflexivity|]. simpl.
        repeat split; auto; intros; discriminate.
  - intros s. unfold icon. repeat split; intros ->; reflexivity.
  - reflexivity.
Qed.

Lemma indicator_by_sign_witness :
  EastmoneyData.update 60 (Response Fixture.page_up)
    (fund_data (__init__ Fixture.polled "Fund"), Fixture.w0)
  = (Val tt, (Fixture.polled, Fixture.w0))
  /\ EastmoneyData.data Fixture.polled = Some Fixture.snap_ok
  /\ EstNav.enav_growth (est_nav Fixture.snap_ok) = Some "-0.0069"
  /\ PyStr.parse_float "-0.0069" = Some (PyStr.FDec true 69 (-4))
  /\ exists self',
       update 60 (Response Fixture.page_up) (__init__ Fixture.polled "Fund", Fixture.w0)
       = (Val tt, (self', Fixture.w0))
       /\ _state self' = Some "1.234"
       /\ _trend self' = (-1)%Z
       /\ icon self' = "mdi:trending-down".
Proof.
  split; [vm_compute; reflexivity|]. split; [vm_compute; reflexivity|].
  split; [reflexivity|]. split; [vm_compute; reflexivity|].
  destruct (indicator_by_sign (__init__ Fixture.polled "Fund") Fixture.w0
              Fixture.w0 60 (Response Fixture.page_up) Fixture.polled
              Fixture.snap_ok "-0.0069" (PyStr.FDec true 69 (-4)))
    as [(self' & Hu & _ & Hs & _ & Hlt & _) _].
  - vm_compute; reflexivity.
  - vm_compute; reflexivity.
  - reflexivity.
  - vm_compute; reflexivity.
  - exists self'. split; [exact Hu|]. split; [exact Hs|].
    apply Hlt. vm_compute; reflexivity.
Defined.

(** An unset change makes the entity's update raise [TypeError], after
    the value has been mirrored and with the trend as it was. *)
Lemma update_unset_growth (self : t) (w w1 : World) (now : Z)
    (reply : http_result) (fd : EastmoneyData.t) (d : Snapshot) :
  EastmoneyData.update now reply (fund_data self, w) = (Val tt, (fd, w1)) ->
  EastmoneyData.data fd = Some d ->
  EstNav.enav_growth (est_nav d) = None ->
  update now reply (self, w)
  = (Exc TypeError,
     (set_state (set_fund_data self fd) (EstNav.enav (est_nav d)), w1)).
Proof.
  intros Hu Hd Hg. unfold update. rewrite Hu, Hd. unfold py_float.
  rewrite Hg. reflexivity.
Qed.

(** C10.  The page [Fixture.page_no_growth] has the estimate value, the
    time and the rate ["0.56%"] but no [gz_gszze] element.  Set-up on it
    registers an entity over a snapshot whose change is [None]; the
    entity's next update, throttled or fetching the same page again,
    raises [TypeError] out of [float(None)], with the value already
    mirrored and the trend untouched. *)
Theorem unset_change_raises_TypeError :
  exists (sensor : t) (w1 : World) (s : Snapshot),
    setup_platform 0 (Response Fixture.page_no_growth) Fixture.config (Fixture.w0, [])
    = (Val None, (w1, [([sensor], true)]))
    /\ EastmoneyData.data (fund_data sensor) = Some s
    /\ EstNav.enav (est_nav s) = Some "1.234"
    /\ EstNav.enav_time (est_nav s) = Some "23-05-10 15:00"
    /\ EstNav.enav_rate (est_nav s) = Some "0.56%"
    /\ EstNav.enav_growth (est_nav s) = None
    /\ (forall reply, fst (update 60 reply (sensor, w1)) = Exc TypeError)
    /\ fst (update 1000 (Response Fixture.page_no_growth) (sensor, w1))
       = Exc TypeError
    /\ _state (fst (snd (update 1000 (Response Fixture.page_no_growth) (sensor, w1))))
       = Some "1.234"
    /\ _trend (fst (snd (update 1000 (Response Fixture.page_no_growth) (sensor, w1))))
       = (-1)%Z.
Proof.
  eexists. eexists. eexists.
  split; [vm_compute; reflexivity|].
  do 5 (split; [vm_compute; reflexivity|]).
  split; [intros reply; vm_compute; reflexivity|].
  do 2 (split; [vm_compute; reflexivity|]).
  vm_compute; reflexivity.
Qed.

End Entity.

(** *** Set-up *)

Section Setup.

(** C9.  [setup_platform] builds a fetcher and polls it once, which
    issues exactly one request.  When the poll returns and the fetcher
    holds no snapshot, the function returns [False] and [add_devices] is
    not called; when it holds one, [add_devices] is called once, with a
    single entity built over that fetcher and the configured name.  When
    the poll raises, so does the function, and nothing is registered. *)
Theorem setup_registers (now : Z) (reply : http_result) (config : Config)
    (w : World) (h : Host) :
  let fund_data :=
    EastmoneyData.__init__ (CONF_FUND_ID config) (CONF_UPDATE_INTERVAL config) in
  let fetched := EastmoneyData.update now reply (fund_data, w) in
  let out := setup_platform now reply config (w, h) in
  w_requests (fst (snd out))
  = (w_requests w ++ [EastmoneyData.url_of (CONF_FUND_ID config)])%list
  /\ fst (snd out) = snd (snd fetched)
  /\ match fst fetched, EastmoneyData.data (fst (snd fetched)) with
     | Val _, None => fst out = Val (Some false) /\ snd (snd out) = h
     | Val _, Some _ =>
         fst out = Val None
         /\ snd (snd out)
            = (h ++ [([EastmoneySensor.__init__ (fst (snd fetched)) (CONF_NAME config)],
                      true)])%list
     | Exc e, _ => fst out = Exc e /\ snd (snd out) = h
     end.
Proof.
  cbv zeta. unfold setup_platform.
  pose proof (update_runs now reply
                (EastmoneyData.__init__ (CONF_FUND_ID config)
                   (CONF_UPDATE_INTERVAL config)) w eq_refl) as (_ & Hr & _).
  destruct (EastmoneyData.update now reply _) as [[[]|e] [fd w1]];
    cbn [fst snd] in *.
  - destruct (EastmoneyData.data fd); cbn [EastmoneyData.is_None fst snd];
      auto.
  - auto.
Qed.

End Setup.

(** *** Sample polls *)

Example poll_ok :
  EastmoneyData.data Fixture.polled = Some Fixture.snap_ok.
Proof. vm_compute. reflexivity. Qed.

Example entity_down :
  EastmoneySensor._trend
    (fst (snd (EastmoneySensor.update 60 (Raises Timeout)
                 (EastmoneySensor.__init__ Fixture.polled "Fund", Fixture.w0))))
  = (-1)%Z.
Proof. vm_compute. reflexivity. Qed.

Example entity_up :
  EastmoneySensor.icon
    (fst (snd (EastmoneySensor.update 1000 (Response Fixture.page_up)
                 (EastmoneySensor.__init__ Fixture.polled "Fund", Fixture.w0))))
  = "mdi:trending-up".
Proof. vm_compute. reflexivity. Qed.

Example entity_flat :
  EastmoneySensor.icon
    (fst (snd (EastmoneySensor.update 1000 (Response Fixture.page_flat)
                 (EastmoneySensor.__init__ Fixture.polled "Fund", Fixture.w0))))
  = "mdi:trending-neutral".
Proof. vm_compute. reflexivity. Qed.

Example attributes_after_clearing :
  EastmoneySensor.device_state_attributes
    (fst (snd (EastmoneySensor.update 1000 (Response Fixture.page_no_settled)
                 (EastmoneySensor.__init__ Fixture.polled "Fund", Fixture.w0))))
  = [("attribution", Some "Powered by East Money")].
Proof. vm_compute. reflexivity. Qed.

(** A rate that comes with a no-break space in front is still read as
    negative, and the change gets its sign. *)
Example nbsp_rate_is_corrected :
  EstNav.enav_growth
    (match fst (EastmoneyData._get_estnav
                  (Fixture.est_signed (String (ascii_of_nat 160) "-1.2%"))
                  Fixture.w0) with
     | Val (Some d) => d
     | _ => Fixture.est_pos
     end)
  = Some "-5".
Proof. vm_compute. reflexivity. Qed.

(** A rate or a change next to one of the separators 28 to 31 is no
    numeral: the extraction, or the entity's update, raises. *)
Example separator_rate_raises :
  fst (EastmoneyData._get_estnav
         (Fixture.est_signed (String (ascii_of_nat 28) "-1.2%")) Fixture.w0)
  = Exc ValueError.
Proof. vm_compute. reflexivity. Qed.

Example separator_change_raises :
  fst (EastmoneySensor.update 0
         (Response
            (Fixture.page "ABC Fund(000001"
               [Fixture.est_region (Some "(23-05-10 15:00)") (Some "1.234")
                  (Some ("5" ++ String (ascii_of_nat 31) "")) (Some "0.56%") [] [];
                Fixture.settled_ok]))
         (EastmoneySensor.__init__ Fixture.fresh "Fund", Fixture.w0))
  = Exc ValueError.
Proof. vm_compute. reflexivity. Qed.

Example network_failure_keeps_snapshot :
  EastmoneyData.update 1000 (Raises Timeout) (Fixture.polled, Fixture.w0)
  = (Val tt,
     (EastmoneyData.set_throttle Fixture.polled
        {| Throttle.min_time := 900; Throttle.last_call := Some 1000%Z |},
      log_line "Unable to connect to Eastmoney. Timeout"
        (note_request (EastmoneyData.url_of "000001") Fixture.w0))).
Proof. vm_compute. reflexivity. Qed.

(** *** More on the string operations *)

Section Strings.

Lemma split_no_sep (sep : ascii) (s : string) :
  Str.occurs sep s = false -> PyStr.split sep s = [s].
Proof.
  induction s as [|c r IH]; simpl; intros H.
  - reflexivity.
  - apply orb_false_iff in H. destruct H as [Hc Hr].
    rewrite Hc, (IH Hr). reflexivity.
Qed.

Lemma split_single_no_sep (sep : ascii) (s b : string) :
  PyStr.split sep s = [b] -> b = s /\ Str.occurs sep s = false.
Proof.
  revert b; induction s as [|c r IH]; simpl; intros b H.
  - inversion H; auto.
  - destruct (Ascii.eqb c sep) eqn:Ec.
    + inversion H as [[Hb Hr]]. exfalso. exact (split_nonempty _ _ Hr).
    + destruct (PyStr.split sep r) as [|p ps] eqn:E.
      * exfalso. exact (split_nonempty _ _ E).
      * inversion H; subst. destruct (IH p eq_refl) as [-> Ho]. auto.
Qed.

(** A split has exactly two parts when the text is the first part, one
    separator and the second part, and neither part holds a separator. *)
Lemma split_two_iff (sep : ascii) (s a b : string) :
  PyStr.split sep s = [a; b] <->
  s = a ++ String sep b /\ Str.occurs sep a = false /\ Str.occurs sep b = false.
Proof.
  split.
  - revert a; induction s as [|c r IH]; simpl; intros a H.
    + discriminate.
    + destruct (Ascii.eqb c sep) eqn:Ec.
      * inversion H as [[Ha Hr]]. apply Ascii.eqb_eq in Ec. subst c.
        destruct (split_single_no_sep _ _ _ Hr) as [-> Ho]. auto.
      * destruct (PyStr.split sep r) as [|p ps] eqn:E; [discriminate|].
        inversion H; subst.
        destruct (IH p eq_refl) as (-> & Hp & Hb).
        simpl. rewrite Ec, Hp. auto.
  - intros (-> & Ha & Hb). induction a as [|c a IH]; simpl.
    + rewrite Ascii.eqb_refl, (split_no_sep _ _ Hb). reflexivity.
    + simpl in Ha. apply orb_false_iff in Ha. destruct Ha as [Hc Ha].
      rewrite Hc, (IH Ha). reflexivity.
Qed.

Lemma lstrip_spec (c : ascii) (s : string) :
  exists k, s = Str.replicate k c ++ PyStr.lstrip c s
            /\ Str.starts_with c (PyStr.lstrip c s) = false.
Proof.
  induction s as [|a r IH]; simpl.
  - exists 0%nat. auto.
  - destruct (Ascii.eqb a c) eqn:E.
    + apply Ascii.eqb_eq in E. subst a. destruct IH as (k & Hk & Hs).
      exists (S k). simpl. rewrite <- Hk. auto.
    + exists 0%nat. simpl. auto.
Qed.

Lemma rstrip_spec (c : ascii) (s : string) :
  exists j, s = PyStr.rstrip c s ++ Str.replicate j c
            /\ Str.ends_with c (PyStr.rstrip c s) = false.
Proof.
  induction s as [|a r IH]; simpl.
  - exists 0%nat. auto.
  - destruct IH as (j & Hj & He).
    destruct (Ascii.eqb a c) eqn:E.
    + destruct (PyStr.rstrip c r) as [|b r'] eqn:Er; simpl.
      * apply Ascii.eqb_eq in E. subst a. exists (S j). simpl.
        simpl in Hj. rewrite <- Hj. auto.
      * exists j. simpl. simpl in Hj. rewrite <- Hj. auto.
    + simpl. exists j. rewrite <- Hj. split; [reflexivity|].
      destruct (PyStr.rstrip c r) as [|b r'] eqn:Er; [exact E | exact He].
Qed.

Lemma rstrip_keeps_start (c c' : ascii) (s : string) :
  Str.starts_with c s = false -> Str.starts_with c (PyStr.rstrip c' s) = false.
Proof.
  destruct s as [|a r]; simpl; [auto|]. intros H.
  destruct (Ascii.eqb a c' && PyStr.is_empty (PyStr.rstrip c' r)); simpl; auto.
Qed.

End Strings.

(** *** The date pattern *)

Section DatePattern.

Ltac bits c := destruct c as [[] [] [] [] [] [] [] []].

Lemma match_month_eq (s : string) :
  PyStr.match_month s =
  match s with
  | String m1 (String m2 r) =>
      if PyStr.is_digit m1 then
        if PyStr.is_digit m2 then
          match r with
          | String c r' =>
              if Ascii.eqb c "-"%char
              then Some (String m1 (String m2 (String "-"%char EmptyString)), r')
              else None
          | EmptyString => None
          end
        else if Ascii.eqb m2 "-"%char then
          Some (String m1 (String "-"%char EmptyString), r)
        else None
      else None
  | _ => None
  end.
Proof.
  destruct s as [|m1 [|m2 [|c r]]]; try reflexivity.
  unfold PyStr.match_month.
  destruct (PyStr.is_digit m1); [|reflexivity].
  destruct (PyStr.is_digit m2); [|reflexivity].
  bits c; reflexivity.
Qed.

Lemma match_date_at_eq (s : string) :
  PyStr.match_date_at s =
  match s with
  | String y1 (String y2 (String y3 (String y4 (String c r)))) =>
      if Ascii.eqb c "-"%char
         && (PyStr.is_digit y1 && PyStr.is_digit y2 && PyStr.is_digit y3
             && PyStr.is_digit y4)
      then
        match PyStr.match_month r with
        | Some (mm, r') =>
            match PyStr.match_day r' with
            | Some dd =>
                Some (String y1 (String y2 (String y3 (String y4
                       (String "-"%char (mm ++ dd))))))
            | None => None
            end
        | None => None
        end
      else None
  | _ => None
  end.
Proof.
  destruct s as [|y1 [|y2 [|y3 [|y4 [|c r]]]]]; try reflexivity.
  unfold PyStr.match_date_at. bits c; reflexivity.
Qed.

Lemma match_month_spec (s mm r' : string) :
  PyStr.match_month s = Some (mm, r') ->
  exists m, mm = m ++ "-" /\ s = m ++ "-" ++ r'
            /\ (String.length m = 1%nat \/ String.length m = 2%nat)
            /\ Str.all_digits m = true.
Proof.
  rewrite match_month_eq.
  destruct s as [|m1 [|m2 r]]; try discriminate.
  destruct (PyStr.is_digit m1) eqn:E1; [|discriminate].
  destruct (PyStr.is_digit m2) eqn:E2.
  - destruct r as [|c r]; [discriminate|].
    destruct (Ascii.eqb c "-"%char) eqn:Ec; [|discriminate].
    apply Ascii.eqb_eq in Ec. subst c. intros H. inversion H; subst.
    exists (String m1 (String m2 EmptyString)). simpl. rewrite E1, E2. auto.
  - destruct (Ascii.eqb m2 "-"%char) eqn:Ec; [|discriminate].
    apply Ascii.eqb_eq in Ec. subst m2. intros H. inversion H; subst.
    exists (String m1 EmptyString). simpl. rewrite E1. auto.
Qed.

Lemma match_day_spec (s dd : string) :
  PyStr.match_day s = Some dd ->
  exists post, s = dd ++ post
               /\ (String.length dd = 1%nat \/ String.length dd = 2%nat)
               /\ Str.all_digits dd = true
               /\ (String.length dd = 1%nat -> Str.starts_with_digit post = false).
Proof.
  unfold PyStr.match_day.
  destruct s as [|d1 [|d2 r]]; try discriminate.
  - destruct (PyStr.is_digit d1) eqn:E1; [|discriminate].
    intros H; inversion H; subst. exists EmptyString. simpl. rewrite E1. auto.
  - destruct (PyStr.is_digit d1) eqn:E1; [|discriminate].
    destruct (PyStr.is_digit d2) eqn:E2; intros H; inversion H; subst.
    + exists r. simpl. rewrite E1, E2. repeat split; auto. discriminate.
    + exists (String d2 r). simpl. rewrite E1. auto.
Qed.

Lemma append_assoc (a b c : string) : (a ++ b) ++ c = a ++ (b ++ c).
Proof. induction a as [|x a IH]; simpl; [reflexivity|]. rewrite IH. reflexivity. Qed.

Lemma match_date_at_spec (s d : string) :
  PyStr.match_date_at s = Some d ->
  exists post, s = d ++ post /\ Str.date_shape d
               /\ (Str.ends_with "-"%char (PyStr.drop_last d) = true ->
                   Str.starts_with_digit post = false).
Proof.
  rewrite match_date_at_eq.
  destruct s as [|y1 [|y2 [|y3 [|y4 [|c r]]]]]; try discriminate.
  destruct (Ascii.eqb c "-"%char) eqn:Ec; [|discriminate].
  destruct (PyStr.is_digit y1) eqn:E1; [|discriminate].
  destruct (PyStr.is_digit y2) eqn:E2; [|discriminate].
  destruct (PyStr.is_digit y3) eqn:E3; [|discriminate].
  destruct (PyStr.is_digit y4) eqn:E4; [|discriminate].
  simpl andb. cbv iota.
  destruct (PyStr.match_month r) as [[mm r']|] eqn:Em; [|discriminate].
  destruct (PyStr.match_day r') as [dd|] eqn:Ed; [|discriminate].
  intros H. inversion H; subst d. clear H.
  apply Ascii.eqb_eq in Ec. subst c.
  apply match_month_spec in Em. destruct Em as (m & -> & -> & Hlm & Hdm).
  apply match_day_spec in Ed. destruct Ed as (post & -> & Hld & Hdd & Hmax).
  exists post. split; [|split].
  - simpl. rewrite !append_assoc. reflexivity.
  - exists (String y1 (String y2 (String y3 (String y4 EmptyString)))), m, dd.
    simpl. rewrite E1, E2, E3, E4. rewrite !append_assoc. simpl. auto 10.
  - intros He. apply Hmax.
    destruct Hld as [H1|H2]; [exact H1|]. exfalso.
    destruct dd as [|a [|b [|? ?]]]; try discriminate.
    simpl in Hdd. apply andb_true_iff in Hdd. destruct Hdd as [Ha _].
    destruct Hlm as [L|L].
    + destruct m as [|m1 [|? ?]]; try discriminate. simpl in He.
      apply Ascii.eqb_eq in He. subst a. discriminate.
    + destruct m as [|m1 [|m2 [|? ?]]]; try discriminate. simpl in He.
      apply Ascii.eqb_eq in He. subst a. discriminate.
Qed.

Lemma first_date_unfold (s : string) :
  PyStr.first_date s =
  match PyStr.match_date_at s with
  | Some d => Some d
  | None => match s with
            | EmptyString => None
            | String _ r => PyStr.first_date r
            end
  end.
Proof. destruct s; reflexivity. Qed.

(** [re.findall(PAT_DATE, s)[0]]: the result is a part of [s] of the
    form [YYYY-M-D], no earlier position of [s] starts a match, and a
    one-digit day is not followed by a digit. *)
Lemma first_date_spec (s d : string) :
  PyStr.first_date s = Some d ->
  exists pre post,
    s = pre ++ d ++ post /\ Str.date_shape d
    /\ (forall p q, s = p ++ q -> (String.length p < String.length pre)%nat ->
                    PyStr.match_date_at q = None)
    /\ (Str.ends_with "-"%char (PyStr.drop_last d) = true ->
        Str.starts_with_digit post = false).
Proof.
  revert d. induction s as [|a r IH]; intros d; rewrite first_date_unfold.
  - simpl. discriminate.
  - destruct (PyStr.match_date_at (String a r)) as [d0|] eqn:Em.
    + intros H; inversion H; subst d0.
      apply match_date_at_spec in Em. destruct Em as (post & Hs & Hsh & Hmax).
      exists EmptyString, post. simpl. repeat split; auto.
      intros p q _ Hl. inversion Hl.
    + intros H. destruct (IH d H) as (pre & post & Hs & Hsh & Hleft & Hmax).
      exists (String a pre), post. simpl.
      split; [rewrite <- Hs; reflexivity|].
      split; [exact Hsh|]. split; [|exact Hmax].
      intros p q Hpq Hl. destruct p as [|b p].
      * simpl in Hpq. subst q. exact Em.
      * simpl in Hpq. inversion Hpq as [[Hb Hr]].
        apply (Hleft p q Hr). simpl in Hl. lia.
Qed.

(** No date is found exactly when no position of the text starts a
    match. *)
Lemma first_date_none (s : string) :
  PyStr.first_date s = None <->
  forall p q, s = p ++ q -> PyStr.match_date_at q = None.
Proof.
  split.
  - induction s as [|a r IH]; rewrite first_date_unfold; intros H p q Hpq.
    + destruct p; [|discriminate]. simpl in Hpq. subst q. reflexivity.
    + destruct (PyStr.match_date_at (String a r)) eqn:Em; [discriminate|].
      destruct p as [|b p].
      * simpl in Hpq. subst q. exact Em.
      * simpl in Hpq. inversion Hpq; subst. exact (IH H p q eq_refl).
  - induction s as [|a r IH]; rewrite first_date_unfold; intros H.
    + reflexivity.
    + rewrite (H EmptyString (String a r) eq_refl).
      apply IH. intros p q Hpq. apply (H (String a p) q). simpl. rewrite Hpq.
      reflexivity.
Qed.

End DatePattern.

(** *** Outcomes of the extraction functions *)

Section Outcomes.

Import Soup EastmoneyData.

(** [_get_estnav] on a block with three [dd] items, as a value: the
    world is left alone and the result is decided by what is found. *)
Lemma _get_estnav_three (estnav_data dd0 dd1 dd2 : node) (w : World) :
  find_all estnav_data "dd" NoAttr = [dd0; dd1; dd2] ->
  _get_estnav estnav_data w =
  (let nav_time :=
     option_map (fun x => PyStr.rstrip ")"%char (PyStr.lstrip "("%char (text x)))
       (find estnav_data "span" (Id "gz_gztime")) in
   let nav := text_of (find dd0 "span" (Id "gz_gsz")) in
   let nav_growth := text_of (find dd0 "span" (Id "gz_gszze")) in
   let nav_rate := text_of (find dd0 "span" (Id "gz_gszzl")) in
   let made g :=
     Val (Some {| EstNav.enav_time := nav_time;
                  EstNav.enav := nav;
                  EstNav.enav_growth := g;
                  EstNav.enav_rate := nav_rate;
                  EstNav.rct_1month :=
                    text_of (find_or dd1 "span" (Class_ green_middle)
                               (Class_ red_middle));
                  EstNav.rct_1year :=
                    text_of (find_or dd2 "span" (Class_ green_middle)
                               (Class_ red_middle)) |}) in
   if is_None nav || is_None nav_time then Val None
   else match nav_rate with
        | None => Exc TypeError
        | Some rate =>
            match PyStr.parse_float (PyStr.drop_last rate) with
            | None => Exc ValueError
            | Some f =>
                if PyStr.lt0 f then
                  match nav_growth with
                  | None => Exc TypeError
                  | Some g => made (Some ("-" ++ g))
                  end
                else made nav_growth
            end
        end,
   w).
Proof.
  intros H. unfold _get_estnav. rewrite H. cbv zeta.
  destruct (is_None _ || is_None _); [reflexivity|].
  unfold bind, py_slice_0_m1, py_float, py_minus_concat, ret, raise.
  destruct (text_of (find dd0 "span" (Id "gz_gszzl"))) as [rate|]; [|reflexivity].
  destruct (PyStr.parse_float (PyStr.drop_last rate)) as [f|]; [|reflexivity].
  destruct (PyStr.lt0 f); [|reflexivity].
  destruct (text_of (find dd0 "span" (Id "gz_gszze"))); reflexivity.
Qed.

Lemma _get_estnav_not_three (estnav_data : node) (w : World) :
  length (find_all estnav_data "dd" NoAttr) <> 3%nat ->
  _get_estnav estnav_data w = (Val None, log_line msg_dd w).
Proof.
  unfold _get_estnav.
  destruct (find_all estnav_data "dd" NoAttr) as [|dd0 [|dd1 [|dd2 [|? ?]]]];
    simpl; intros H; try reflexivity. congruence.
Qed.

(** [_get_nav] on a block with three [dd] items, as a value. *)
Lemma _get_nav_three (nav_data dd0 dd1 dd2 : node) (w : World) :
  find_all nav_data "dd" NoAttr = [dd0; dd1; dd2] ->
  _get_nav nav_data w =
  (let nav := text_of (find_or dd0 "span" (Class_ green_large) (Class_ red_large)) in
   let made date :=
     if is_None nav || is_None date then Val None
     else Val (Some {| Nav.nav_date := date;
                       Nav.nav := nav;
                       Nav.nav_rate :=
                         text_of (find_or dd0 "span" (Class_ green_middle)
                                    (Class_ red_middle));
                       Nav.rct_3month :=
                         text_of (find dd1 "span" (Class_ green_middle));
                       Nav.rct_3year :=
                         text_of (find dd2 "span" (Class_ red_middle)) |}) in
   match find nav_data "dt" NoAttr with
   | None => made None
   | Some dt =>
       match PyStr.first_date (text dt) with
       | None => Exc IndexError
       | Some d => made (Some d)
       end
   end,
   w).
Proof.
  intros H. unfold _get_nav. rewrite H. cbv zeta.
  unfold bind, py_findall_0, ret, raise.
  destruct (find nav_data "dt" NoAttr) as [dt|].
  - destruct (PyStr.first_date (text dt)); [|reflexivity].
    destruct (is_None _ || is_None _); reflexivity.
  - destruct (is_None _ || is_None _); reflexivity.
Qed.

Lemma _get_nav_not_three (nav_data : node) (w : World) :
  length (find_all nav_data "dd" NoAttr) <> 3%nat ->
  _get_nav nav_data w = (Val None, log_line msg_dd w).
Proof.
  unfold _get_nav.
  destruct (find_all nav_data "dd" NoAttr) as [|dd0 [|dd1 [|dd2 [|? ?]]]];
    simpl; intros H; try reflexivity. congruence.
Qed.

Lemma three_or_not (l : list node) :
  (exists a b c, l = [a; b; c]) \/ length l <> 3%nat.
Proof.
  destruct l as [|a [|b [|c [|? ?]]]]; simpl; try (right; lia).
  left. eauto.
Qed.

(** X1.  [_get_estnav] raises exactly in three situations, all on a block
    with three [dd] items, a value and a time: no [gz_gszzl] element
    ([TypeError]); a rate whose text without its last character is not a
    number ([ValueError]); a negative rate with no [gz_gszze] element
    ([TypeError]).  Nothing is logged then. *)
Theorem _get_estnav_raises (estnav_data : node) (w w' : World) (e : exn) :
  _get_estnav estnav_data w = (Exc e, w') <->
  w' = w
  /\ exists dd0 dd1 dd2,
       find_all estnav_data "dd" NoAttr = [dd0; dd1; dd2]
       /\ find dd0 "span" (Id "gz_gsz") <> None
       /\ find estnav_data "span" (Id "gz_gztime") <> None
       /\ ((find dd0 "span" (Id "gz_gszzl") = None /\ e = TypeError)
           \/ (exists rate,
                 text_of (find dd0 "span" (Id "gz_gszzl")) = Some rate
                 /\ PyStr.parse_float (PyStr.drop_last rate) = None
                 /\ e = ValueError)
           \/ (exists rate f,
                 text_of (find dd0 "span" (Id "gz_gszzl")) = Some rate
                 /\ PyStr.parse_float (PyStr.drop_last rate) = Some f
                 /\ PyStr.lt0 f = true
                 /\ find dd0 "span" (Id "gz_gszze") = None
                 /\ e = TypeError)).
Proof.
  split.
  - intros H.
    destruct (three_or_not (find_all estnav_data "dd" NoAttr))
      as [(dd0 & dd1 & dd2 & Hdd) | Hn].
    2:{ rewrite (_get_estnav_not_three _ _ Hn) in H. discriminate. }
    rewrite (_get_estnav_three _ _ _ _ _ Hdd) in H. cbv zeta in H.
    destruct (find dd0 "span" (Id "gz_gsz")) as [v|] eqn:Ev; [|discriminate].
    destruct (find estnav_data "span" (Id "gz_gztime")) as [t|] eqn:Et;
      [|discriminate].
    simpl in H.
    destruct (find dd0 "span" (Id "gz_gszzl")) as [r|] eqn:Er; simpl in H.
    + destruct (PyStr.parse_float (PyStr.drop_last (text r))) as [f|] eqn:Ef.
      * destruct (PyStr.lt0 f) eqn:El; [|discriminate].
        destruct (find dd0 "span" (Id "gz_gszze")) as [g|] eqn:Eg;
          [discriminate|].
        simpl in H. inversion H; subst. split; [reflexivity|].
        exists dd0, dd1, dd2. repeat split; try congruence.
        right; right. exists (text r), f. rewrite Er. simpl. auto.
      * inversion H; subst. split; [reflexivity|].
        exists dd0, dd1, dd2. repeat split; try congruence.
        right; left. exists (text r). rewrite Er. simpl. auto.
    + inversion H; subst. split; [reflexivity|].
      exists dd0, dd1, dd2. repeat split; try congruence. left. auto.
  - intros (-> & dd0 & dd1 & dd2 & Hdd & Hv & Ht & Hc).
    rewrite (_get_estnav_three _ _ _ _ _ Hdd). cbv zeta.
    destruct (find dd0 "span" (Id "gz_gsz")) as [v|]; [|congruence].
    destruct (find estnav_data "span" (Id "gz_gztime")) as [t|]; [|congruence].
    simpl.
    destruct Hc as [(Hr & ->) | [(rate & Hr & Hf & ->) | (rate & f & Hr & Hf & Hl & Hg & ->)]].
    + rewrite Hr. reflexivity.
    + rewrite Hr, Hf. reflexivity.
    + rewrite Hr, Hf, Hl, Hg. reflexivity.
Qed.

Lemma _get_estnav_raises_witness :
  _get_estnav
    (Fixture.est_region (Some "(23-05-10 15:00)") (Some "1.234") (Some "--")
       (Some "--") [] []) Fixture.w0
  = (Exc ValueError, Fixture.w0).
Proof.
  apply (proj2 (_get_estnav_raises _ Fixture.w0 Fixture.w0 ValueError)).
  split; [reflexivity|].
  eexists _, _, _. split; [vm_compute; reflexivity|].
  split; [vm_compute; discriminate|]. split; [vm_compute; discriminate|].
  right; left. exists "--". repeat split; vm_compute; reflexivity.
Defined.

(** X2.  [_get_nav] raises exactly when its block has three [dd] items
    and a [dt] in whose text no position starts a match of the date
    pattern; the exception is [IndexError] and nothing is logged.  It
    does so whether or not the value is present. *)
Theorem _get_nav_raises (nav_data : node) (w w' : World) (e : exn) :
  _get_nav nav_data w = (Exc e, w') <->
  w' = w /\ e = IndexError
  /\ exists dt dd0 dd1 dd2,
       find nav_data "dt" NoAttr = Some dt
       /\ find_all nav_data "dd" NoAttr = [dd0; dd1; dd2]
       /\ forall p q, text dt = p ++ q -> PyStr.match_date_at q = None.
Proof.
  split.
  - intros H.
    destruct (three_or_not (find_all nav_data "dd" NoAttr))
      as [(dd0 & dd1 & dd2 & Hdd) | Hn].
    2:{ rewrite (_get_nav_not_three _ _ Hn) in H. discriminate. }
    rewrite (_get_nav_three _ _ _ _ _ Hdd) in H. cbv zeta in H.
    destruct (find nav_data "dt" NoAttr) as [dt|] eqn:Edt.
    + destruct (PyStr.first_date (text dt)) as [d|] eqn:Ed.
      * destruct (is_None _ || is_None _) in H; discriminate.
      * inversion H; subst. repeat split.
        exists dt, dd0, dd1, dd2. repeat split; auto.
        apply first_date_none. exact Ed.
    + destruct (is_None _ || is_None _) in H; discriminate.
  - intros (-> & -> & dt & dd0 & dd1 & dd2 & Hdt & Hdd & Hno).
    rewrite (_get_nav_three _ _ _ _ _ Hdd). cbv zeta. rewrite Hdt.
    apply first_date_none in Hno. rewrite Hno. reflexivity.
Qed.

Lemma _get_nav_raises_witness :
  exists w' e,
    _get_nav (Fixture.settled_region "Net value" [] [] []) Fixture.w0
    = (Exc e, w')
    /\ w' = Fixture.w0 /\ e = IndexError.
Proof.
  exists Fixture.w0, IndexError.
  split; [vm_compute; reflexivity|].
  destruct (proj1 (_get_nav_raises
                     (Fixture.settled_region "Net value" [] [] [])
                     Fixture.w0 Fixture.w0 IndexError)) as (A & B & _).
  - vm_compute; reflexivity.
  - split; assumption.
Defined.

(** X3.  The date a successful [_get_nav] stores is a part of the text
    of the block's [dt], of the form [YYYY-M-D]; no earlier position of
    that text starts a match; and a one-digit day is not followed by
    another digit. *)
Theorem stored_date_is_leftmost_match (nav_data : node) (w w' : World)
    (n : Nav.t) :
  _get_nav nav_data w = (Val (Some n), w') ->
  exists dt d pre post,
    find nav_data "dt" NoAttr = Some dt
    /\ Nav.nav_date n = Some d
    /\ text dt = pre ++ d ++ post
    /\ Str.date_shape d
    /\ (forall p q, text dt = p ++ q ->
                    (String.length p < String.length pre)%nat ->
                    PyStr.match_date_at q = None)
    /\ (Str.ends_with "-"%char (PyStr.drop_last d) = true ->
        Str.starts_with_digit post = false).
Proof.
  intros H. apply _get_nav_inv in H.
  destruct H as (dt & dd0 & dd1 & dd2 & d & v & Hdt & _ & Hd & _ & Hnd & _).
  apply first_date_spec in Hd. destruct Hd as (pre & post & Hs & Hsh & Hl & Hm).
  exists dt, d, pre, post. auto 10.
Qed.

Lemma stored_date_is_leftmost_match_witness :
  _get_nav Fixture.settled_ok Fixture.w0
  = (Val (Some (nav Fixture.snap_ok)), Fixture.w0)
  /\ exists dt d pre post,
       find Fixture.settled_ok "dt" NoAttr = Some dt
       /\ Nav.nav_date (nav Fixture.snap_ok) = Some d
       /\ text dt = pre ++ d ++ post
       /\ Str.date_shape d
       /\ (forall p q, text dt = p ++ q ->
                       (String.length p < String.length pre)%nat ->
                       PyStr.match_date_at q = None)
       /\ (Str.ends_with "-"%char (PyStr.drop_last d) = true ->
           Str.starts_with_digit post = false).
Proof.
  split; [vm_compute; reflexivity|].
  apply (stored_date_is_leftmost_match Fixture.settled_ok Fixture.w0 Fixture.w0).
  vm_compute; reflexivity.
Defined.

(** X4.  The estimate time a successful [_get_estnav] stores is the text
    of the [gz_gztime] element without its leading ["("] and trailing
    [")"] characters, however many there are: it neither starts with
    ["("] nor ends with [")"]. *)
Theorem stored_time_is_stripped (estnav_data : node) (w w' : World)
    (d : EstNav.t) :
  _get_estnav estnav_data w = (Val (Some d), w') ->
  exists span time k j,
    find estnav_data "span" (Id "gz_gztime") = Some span
    /\ EstNav.enav_time d = Some time
    /\ text span = Str.replicate k "("%char ++ time ++ Str.replicate j ")"%char
    /\ Str.starts_with "("%char time = false
    /\ Str.ends_with ")"%char time = false.
Proof.
  intros H. apply _get_estnav_inv in H.
  destruct H as (dd0 & dd1 & dd2 & time & value & rate & f & _ & Ht & _ & _ & _
                 & _ & Het & _).
  destruct (find estnav_data "span" (Id "gz_gztime")) as [sp|]; [|discriminate].
  simpl in Ht. inversion Ht as [Htime]. clear Ht.
  destruct (lstrip_spec "("%char (text sp)) as (k & Hk & Hs).
  destruct (rstrip_spec ")"%char (PyStr.lstrip "("%char (text sp))) as (j & Hj & He).
  exists sp, time, k, j. rewrite Het, <- Htime.
  split; [reflexivity|]. split; [reflexivity|].
  split; [|split].
  - rewrite <- Hj. exact Hk.
  - apply rstrip_keeps_start. exact Hs.
  - exact He.
Qed.

Lemma stored_time_is_stripped_witness :
  _get_estnav Fixture.est_ok Fixture.w0
  = (Val (Some (est_nav Fixture.snap_ok)), Fixture.w0)
  /\ exists span time k j,
       find Fixture.est_ok "span" (Id "gz_gztime") = Some span
       /\ EstNav.enav_time (est_nav Fixture.snap_ok) = Some time
       /\ text span = Str.replicate k "("%char ++ time ++ Str.replicate j ")"%char
       /\ Str.starts_with "("%char time = false
       /\ Str.ends_with ")"%char time = false.
Proof.
  split; [vm_compute; reflexivity|].
  apply (stored_time_is_stripped Fixture.est_ok Fixture.w0 Fixture.w0).
  vm_compute; reflexivity.
Defined.

End Outcomes.

(** *** The pipeline as a whole *)

Section Polls.

Import Soup EastmoneyData.

(** X5.  The title check passes exactly when the title text is a name,
    one ["("] and the configured identifier, with no further ["("] in
    either; an identifier that holds a ["("] never passes. *)
Theorem title_check_exact (soup : node) (id : string) :
  (tit_ok (_get_fund_tit soup) id = true <->
   exists name,
     Spec.title_text soup = Some (name ++ "(" ++ id)
     /\ Str.occurs "("%char name = false /\ Str.occurs "("%char id = false)
  /\ (Str.occurs "("%char id = true -> tit_ok (_get_fund_tit soup) id = false).
Proof.
  assert (Hiff : tit_ok (_get_fund_tit soup) id = true <->
                 exists name,
                   Spec.title_text soup = Some (name ++ "(" ++ id)
                   /\ Str.occurs "("%char name = false
                   /\ Str.occurs "("%char id = false).
  { rewrite tit_ok_iff. split.
    - intros (t & name & Ht & Hs). apply split_two_iff in Hs.
      destruct Hs as (-> & Hn & Hi). exists name. auto.
    - intros (name & Ht & Hn & Hi). exists (name ++ "(" ++ id), name.
      split; [assumption|]. apply split_two_iff. auto. }
  split; [exact Hiff|].
  intros Ho. destruct (tit_ok (_get_fund_tit soup) id) eqn:E; [|reflexivity].
  destruct (proj1 Hiff eq_refl) as (name & _ & _ & Hi). congruence.
Qed.

Lemma title_check_exact_witness :
  Str.occurs "("%char "00(01" = true
  /\ tit_ok (_get_fund_tit (Fixture.page "ABC Fund(00(01" [])) "00(01" = false.
Proof.
  split; [reflexivity|].
  apply (proj2 (title_check_exact (Fixture.page "ABC Fund(00(01" []) "00(01")).
  reflexivity.
Defined.

Lemma _get_estnav_exn (estnav_data : node) (w w' : World) (e : exn) :
  _get_estnav estnav_data w = (Exc e, w') ->
  w' = w /\ (e = TypeError \/ e = ValueError).
Proof.
  intros H.
  destruct (three_or_not (find_all estnav_data "dd" NoAttr))
    as [(dd0 & dd1 & dd2 & Hdd) | Hn].
  2:{ rewrite (_get_estnav_not_three _ _ Hn) in H. discriminate. }
  rewrite (_get_estnav_three _ _ _ _ _ Hdd) in H. cbv zeta in H.
  destruct (is_None _ || is_None _) in H; [discriminate|].
  destruct (text_of (find dd0 "span" (Id "gz_gszzl"))) as [r|];
    [|inversion H; auto].
  destruct (PyStr.parse_float (PyStr.drop_last r)) as [f|]; [|inversion H; auto].
  destruct (PyStr.lt0 f); [|discriminate].
  destruct (text_of (find dd0 "span" (Id "gz_gszze"))); [discriminate|].
  inversion H; auto.
Qed.

Lemma _get_nav_exn (nav_data : node) (w w' : World) (e : exn) :
  _get_nav nav_data w = (Exc e, w') -> w' = w /\ e = IndexError.
Proof.
  intros H.
  destruct (three_or_not (find_all nav_data "dd" NoAttr))
    as [(dd0 & dd1 & dd2 & Hdd) | Hn].
  2:{ rewrite (_get_nav_not_three _ _ Hn) in H. discriminate. }
  rewrite (_get_nav_three _ _ _ _ _ Hdd) in H. cbv zeta in H.
  destruct (find nav_data "dt" NoAttr) as [dt|].
  - destruct (PyStr.first_date (text dt)).
    + destruct (is_None _ || is_None _) in H; discriminate.
    + inversion H; auto.
  - destruct (is_None _ || is_None _) in H; discriminate.
Qed.

(** What either extraction function does to the log. *)
Lemma _get_estnav_log (estnav_data : node) (w : World) :
  _get_estnav estnav_data w = (Val None, log_line msg_dd w)
  \/ snd (_get_estnav estnav_data w) = w.
Proof.
  destruct (three_or_not (find_all estnav_data "dd" NoAttr))
    as [(dd0 & dd1 & dd2 & Hdd) | Hn].
  - right. rewrite (_get_estnav_three _ _ _ _ _ Hdd). reflexivity.
  - left. apply _get_estnav_not_three. exact Hn.
Qed.

Lemma _get_nav_log (nav_data : node) (w : World) :
  _get_nav nav_data w = (Val None, log_line msg_dd w)
  \/ snd (_get_nav nav_data w) = w.
Proof.
  destruct (three_or_not (find_all nav_data "dd" NoAttr))
    as [(dd0 & dd1 & dd2 & Hdd) | Hn].
  - right. rewrite (_get_nav_three _ _ _ _ _ Hdd). reflexivity.
  - left. apply _get_nav_not_three. exact Hn.
Qed.

Ltac log_case l :=
  exists l;
  split; [simpl; rewrite ?app_nil_r, <- ?app_assoc; reflexivity|];
  split; [simpl; auto 10|];
  split;
  [ intros s Hs; simpl in Hs; try discriminate Hs; reflexivity
  | intros e' He'; simpl in He'; try discriminate He';
    inversion He'; subst; simpl; auto 10 ].

(** X6.  [_analyze] writes at most two lines, each one of its four
    messages; it writes none when it returns a dictionary, none or the
    [dd] line when it raises, and it raises nothing but [TypeError],
    [ValueError] and [IndexError]. *)
Theorem analysis_log (soup : node) (w : World) :
  exists l,
    w_log (snd (_analyze soup w)) = (w_log w ++ l)%list
    /\ In l [[]; [msg_fundInfoItem]; [msg_dataOfFund]; [msg_dataItem];
             [msg_dd]; [msg_dd; msg_dd]]
    /\ (forall s, fst (_analyze soup w) = Val (Some s) -> l = [])
    /\ (forall e, fst (_analyze soup w) = Exc e ->
          (l = [] \/ l = [msg_dd])
          /\ In e [TypeError; ValueError; IndexError]).
Proof.
  unfold _analyze.
  destruct (find soup "div" (Class_ "fundInfoItem")) as [fii|];
    [|log_case [msg_fundInfoItem]].
  destruct (find fii "div" (Class_ "dataOfFund")) as [fd|];
    [|log_case [msg_dataOfFund]].
  destruct (find fd "dl" (Class_ "dataItem01")) as [d1|];
    [|log_case [msg_dataItem]].
  destruct (find fd "dl" (Class_ "dataItem02")) as [d2|];
    [|log_case [msg_dataItem]].
  unfold bind.
  destruct (_get_estnav_log d1 w) as [He | He].
  - rewrite He.
    destruct (_get_nav_log d2 (log_line msg_dd w)) as [Hn | Hn].
    + rewrite Hn. log_case [msg_dd; msg_dd].
    + destruct (_get_nav d2 (log_line msg_dd w)) as [[n|e] w2] eqn:En;
        simpl in Hn; subst w2.
      * destruct n; log_case [msg_dd].
      * apply _get_nav_exn in En. destruct En as [_ ->]. log_case [msg_dd].
  - destruct (_get_estnav d1 w) as [[e1|x] w1] eqn:E1; simpl in He; subst w1.
    + destruct (_get_nav_log d2 w) as [Hn | Hn].
      * rewrite Hn. destruct e1; log_case [msg_dd].
      * destruct (_get_nav d2 w) as [[n|e] w2] eqn:En; simpl in Hn; subst w2.
        -- destruct e1, n; log_case (@nil string).
        -- apply _get_nav_exn in En. destruct En as [_ ->].
           log_case (@nil string).
    + apply _get_estnav_exn in E1. destruct E1 as [_ [-> | ->]];
        log_case (@nil string).
Qed.

Lemma _analyze_exn (soup : node) (w w' : World) (e : exn) :
  _analyze soup w = (Exc e, w') -> In e [TypeError; ValueError; IndexError].
Proof.
  unfold _analyze. intros H.
  destruct (find soup "div" (Class_ "fundInfoItem")) as [fii|]; [|discriminate].
  destruct (find fii "div" (Class_ "dataOfFund")) as [fd|]; [|discriminate].
  destruct (find fd "dl" (Class_ "dataItem01")) as [d1|]; [|discriminate].
  destruct (find fd "dl" (Class_ "dataItem02")) as [d2|]; [|discriminate].
  unfold bind in H.
  destruct (_get_estnav d1 w) as [[e1|x] w1] eqn:E1.
  - destruct (_get_nav d2 w1) as [[n|y] w2] eqn:E2.
    + destruct e1, n; discriminate.
    + apply _get_nav_exn in E2. destruct E2 as [_ ->].
      inversion H; subst. simpl; auto.
  - apply _get_estnav_exn in E1. destruct E1 as [_ [-> | ->]];
      inversion H; subst; simpl; auto.
Qed.

(** X7.  A run of [_update] that raises leaves the fetcher exactly as it
    was, with its one request made.  It raises either what
    [requests.get] raised, when that is outside the [except] clause, or,
    on a page that passed the title check, one of [TypeError],
    [ValueError] and [IndexError]. *)
Theorem raising_poll_keeps_fetcher (reply : http_result) (self : t)
    (w : World) (e : exn) (s' : t * World) :
  _update reply (self, w) = (Exc e, s') ->
  fst s' = self
  /\ w_requests (snd s') = (w_requests w ++ [url_of (fund_id self)])%list
  /\ ((reply = Raises e /\ caught e = false)
      \/ (exists soup,
            reply = Response soup
            /\ tit_ok (_get_fund_tit soup) (fund_id self) = true
            /\ In e [TypeError; ValueError; IndexError])).
Proof.
  intros H.
  pose proof (_update_frame reply self w) as (Hr & _ & _).
  rewrite H in Hr. simpl in Hr.
  split; [|split; [exact Hr|]].
  - destruct reply as [x|soup].
    + unfold _update, requests_get, on_world, _LOGGER_error in H.
      destruct (caught x); inversion H; reflexivity.
    + rewrite _update_response in H. cbv zeta in H.
      destruct (tit_ok _ _); [|discriminate].
      destruct (_analyze soup _) as [[d|x] w2]; inversion H; reflexivity.
  - destruct reply as [x|soup].
    + left. unfold _update, requests_get, on_world, _LOGGER_error in H.
      destruct (caught x) eqn:Ec; inversion H; subst. auto.
    + right. exists soup. rewrite _update_response in H. cbv zeta in H.
      destruct (tit_ok _ _); [|discriminate].
      destruct (_analyze soup _) as [[d|x] w2] eqn:Ea; inversion H; subst.
      split; [reflexivity|]. split; [reflexivity|].
      exact (_analyze_exn _ _ _ _ Ea).
Qed.

Lemma raising_poll_keeps_fetcher_witness :
  _update (Response Fixture.page_no_date) (Fixture.polled, Fixture.w0)
  = (Exc IndexError, (Fixture.polled, note_request (url_of "000001") Fixture.w0))
  /\ fst (Fixture.polled, note_request (url_of "000001") Fixture.w0) = Fixture.polled.
Proof.
  split; [vm_compute; reflexivity|].
  apply (raising_poll_keeps_fetcher (Response Fixture.page_no_date)
           Fixture.polled Fixture.w0 IndexError).
  vm_compute; reflexivity.
Defined.

(** *** Sequences of polls *)

Lemma data_ok_polls (calls : list (Z * http_result)) (self : t) (w : World) :
  data_ok self -> data_ok (fst (Run.polls calls (self, w))).
Proof.
  revert self w. induction calls as [|[now reply] rest IH]; intros self w H.
  - exact H.
  - cbn [Run.polls]. pose proof (data_ok_update now reply self w H) as H'.
    destruct (update now reply (self, w)) as [r [self' w']]. cbn [fst snd] in *.
    apply IH. exact H'.
Qed.

(** X8.  Whatever the sequence of polls of a new fetcher (any times, any
    answers of the network, exceptions included), the fetcher holds
    either nothing or a dictionary whose estimate value and time and
    settled value and date are strings and whose [last_update] is the
    estimate time. *)
Theorem held_snapshot_always_complete (calls : list (Z * http_result))
    (fund_id : string) (internal : Z) (w : World) :
  match data (fst (Run.polls calls (__init__ fund_id internal, w))) with
  | None => True
  | Some s =>
      (exists v, EstNav.enav (est_nav s) = Some v)
      /\ (exists t, EstNav.enav_time (est_nav s) = Some t
                    /\ last_update s = Some t)
      /\ (exists v, Nav.nav (nav s) = Some v)
      /\ (exists d, Nav.nav_date (nav s) = Some d)
  end.
Proof.
  exact (data_ok_polls calls (__init__ fund_id internal) w
           (data_ok_init fund_id internal)).
Qed.

Lemma update_requests (now : Z) (reply : http_result) (self : t) (w : World) :
  fund_id (fst (snd (update now reply (self, w)))) = fund_id self
  /\ (w_requests (snd (snd (update now reply (self, w)))) = w_requests w
      \/ w_requests (snd (snd (update now reply (self, w))))
         = (w_requests w ++ [url_of (fund_id self)])%list).
Proof.
  destruct (Throttle.throttled now (throttle self)) eqn:E.
  - rewrite (update_throttled _ _ _ _ E). simpl. auto.
  - destruct (update_runs now reply self w E) as (_ & Hr & _ & Hf & _). auto.
Qed.

(** X9.  A fetcher only ever requests the URL of its own fund, at most
    once per call of [update], and its identifier never changes. *)
Theorem polls_request_own_url (calls : list (Z * http_result)) (self : t)
    (w : World) :
  fund_id (fst (Run.polls calls (self, w))) = fund_id self
  /\ exists k,
       (k <= length calls)%nat
       /\ w_requests (snd (Run.polls calls (self, w)))
          = (w_requests w ++ repeat (url_of (fund_id self)) k)%list.
Proof.
  revert self w. induction calls as [|[now reply] rest IH]; intros self w.
  - simpl. split; [reflexivity|]. exists 0%nat. simpl.
    rewrite app_nil_r. auto.
  - cbn [Run.polls length].
    destruct (update_requests now reply self w) as (Hf & Hr).
    destruct (update now reply (self, w)) as [r [self' w']]. cbn [fst snd] in *.
    destruct (IH self' w') as (Hf' & k & Hk & Hreq).
    split; [congruence|].
    rewrite Hf in Hreq. destruct Hr as [Hr | Hr]; rewrite Hr in Hreq.
    + exists k. split; [lia | exact Hreq].
    + exists (S k). split; [lia|]. rewrite Hreq, <- app_assoc. reflexivity.
Qed.

Lemma stops_early__update (reply : http_result) (self : t) (w : World) :
  Run.stops_early (fund_id self) reply = true ->
  fst (_update reply (self, w)) = Val tt
  /\ fst (snd (_update reply (self, w))) = self.
Proof.
  intros H. destruct reply as [e|soup]; simpl in H.
  - unfold _update, requests_get, on_world, _LOGGER_error. rewrite H. auto.
  - rewrite _update_response. cbv zeta.
    apply negb_true_iff in H. rewrite H. auto.
Qed.

Lemma stops_early_update (now : Z) (reply : http_result) (self : t) (w : World) :
  Run.stops_early (fund_id self) reply = true ->
  fst (update now reply (self, w)) = Val tt
  /\ fund_id (fst (snd (update now reply (self, w)))) = fund_id self
  /\ data (fst (snd (update now reply (self, w)))) = data self.
Proof.
  intros H. destruct (Throttle.throttled now (throttle self)) eqn:E.
  - rewrite (update_throttled _ _ _ _ E). simpl. auto.
  - destruct (update_runs now reply self w E) as (H1 & _ & _ & Hf & Hd & _).
    destruct (stops_early__update reply self w H) as (Hv & Hs).
    rewrite H1, Hd, Hs. auto.
Qed.

(** X10.  Transport errors of the [except] clause and pages that fail
    the title check never change the snapshot: through any sequence of
    polls answered only by such replies every call returns normally and
    the fetcher holds what it held before. *)
Theorem early_stops_keep_snapshot (calls : list (Z * http_result)) (self : t)
    (w : World) :
  Forall (fun c => Run.stops_early (fund_id self) (snd c) = true) calls ->
  data (fst (Run.polls calls (self, w))) = data self
  /\ Forall (fun r => r = Val tt) (Run.outcomes calls (self, w)).
Proof.
  revert self w. induction calls as [|[now reply] rest IH]; intros self w H.
  - simpl. auto.
  - inversion H as [|c l Hc Hl]; subst. simpl in Hc.
    destruct (stops_early_update now reply self w Hc) as (Hv & Hf & Hd).
    cbn [Run.polls Run.outcomes].
    destruct (update now reply (self, w)) as [r [self' w']]. cbn [fst snd] in *.
    rewrite <- Hf in Hl. destruct (IH self' w' Hl) as (Hd' & Ho).
    split; [congruence|]. constructor; assumption.
Qed.

Lemma early_stops_keep_snapshot_witness :
  Forall (fun c => Run.stops_early (fund_id Fixture.polled) (snd c) = true)
    [(1000%Z, Raises Timeout);
     (2000%Z, Response (Fixture.page "Other Fund(000002" []))]
  /\ data (fst (Run.polls
                  [(1000%Z, Raises Timeout);
                   (2000%Z, Response (Fixture.page "Other Fund(000002" []))]
                  (Fixture.polled, Fixture.w0)))
     = Some Fixture.snap_ok.
Proof.
  assert (H : Forall (fun c => Run.stops_early (fund_id Fixture.polled) (snd c) = true)
                [(1000%Z, Raises Timeout);
                 (2000%Z, Response (Fixture.page "Other Fund(000002" []))]).
  { repeat constructor. }
  split; [exact H|].
  rewrite (proj1 (early_stops_keep_snapshot _ Fixture.polled Fixture.w0 H)).
  vm_compute. reflexivity.
Defined.

End Polls.

(** *** Signs of numerals *)

Section Signs.

Ltac bits c := destruct c as [[] [] [] [] [] [] [] []].

Lemma read_decimal_sign (neg : bool) (s : string) (f : PyStr.pyfloat) :
  PyStr.read_decimal neg s = Some f ->
  exists m e, f = PyStr.FDec neg m e
              /\ forall neg', PyStr.read_decimal neg' s = Some (PyStr.FDec neg' m e).
Proof.
  unfold PyStr.read_decimal.
  destruct (PyStr.span_digits s 0 0) as [[m1 n1] r1].
  destruct (match r1 with
            | String "."%char r => PyStr.span_digits r m1 0
            | _ => (m1, 0%Z, r1)
            end) as [[m2 n2] r2].
  destruct (0 <? n1 + n2)%Z; [|discriminate].
  destruct (PyStr.read_exponent r2) as [x|]; [|discriminate].
  intros H; inversion H; subst. eauto.
Qed.

(** A numeral that starts with a digit or the point: [float] reads it as
    a non-negative decimal, and with ["-"] in front as its opposite. *)
Lemma parse_float_unsigned (g : string) (f : PyStr.pyfloat) :
  Str.unsigned g = true ->
  PyStr.parse_float g = Some f ->
  exists m e, f = PyStr.FDec false m e
              /\ PyStr.parse_float ("-" ++ g) = Some (PyStr.FDec true m e).
Proof.
  destruct g as [|a r]; [discriminate|]. simpl Str.unsigned. intros Hu.
  assert (Hg : forall neg pre,
             (pre = EmptyString \/ pre = "-") ->
             neg = (if PyStr.is_empty pre then false else true) ->
             PyStr.parse_float (pre ++ String a r)
             = PyStr.read_decimal neg (String a (PyStr.rstrip_space r))).
  { intros neg pre Hpre ->.
    bits a; try discriminate Hu;
      destruct Hpre as [-> | ->]; unfold PyStr.parse_float, PyStr.strip_space;
      simpl; reflexivity. }
  intros Hf.
  pose proof (Hg false EmptyString (or_introl eq_refl) eq_refl) as H0.
  change (EmptyString ++ String a r) with (String a r) in H0.
  rewrite H0 in Hf.
  apply read_decimal_sign in Hf. destruct Hf as (m & e & -> & Hall).
  exists m, e. split; [reflexivity|].
  rewrite (Hg true "-" (or_intror eq_refl) eq_refl). apply Hall.
Qed.

(** A text that already starts with a sign is no numeral any more once
    ["-"] is put in front of it. *)
Lemma parse_float_double_sign (g : string) :
  Str.signed g = true -> PyStr.parse_float ("-" ++ g) = None.
Proof.
  destruct g as [|a r]; [discriminate|]. simpl Str.signed. intros Hs.
  apply orb_true_iff in Hs.
  destruct Hs as [Hs | Hs]; apply Ascii.eqb_eq in Hs; subst a;
    unfold PyStr.parse_float, PyStr.strip_space; simpl; reflexivity.
Qed.

End Signs.

(** *** The entity over time *)

Section EntityRuns.

Import EastmoneySensor.

(** The entity's update once the fetcher's update has returned: the
    value is mirrored, and the change decides between a trend and an
    exception. *)
Lemma update_after_fetch (self : t) (w w1 : World) (now : Z)
    (reply : http_result) (fd : EastmoneyData.t) :
  EastmoneyData.update now reply (fund_data self, w) = (Val tt, (fd, w1)) ->
  update now reply (self, w) =
  match EastmoneyData.data fd with
  | None => (Val tt, (set_fund_data self fd, w1))
  | Some d =>
      let self1 := set_state (set_fund_data self fd) (EstNav.enav (est_nav d)) in
      match EstNav.enav_growth (est_nav d) with
      | None => (Exc TypeError, (self1, w1))
      | Some g =>
          match PyStr.parse_float g with
          | None => (Exc ValueError, (self1, w1))
          | Some f =>
              (Val tt,
               (set_trend self1
                  (if PyStr.gt0 f then 1 else if PyStr.lt0 f then -1 else 0)%Z,
                w1))
          end
      end
  end.
Proof.
  intros H. unfold update. rewrite H.
  destruct (EastmoneyData.data fd) as [d|]; [|reflexivity].
  cbv zeta. unfold py_float, ret, raise.
  destruct (EstNav.enav_growth (est_nav d)) as [g|]; [|reflexivity].
  destruct (PyStr.parse_float g) as [f|]; [|reflexivity].
  destruct (PyStr.gt0 f); [reflexivity|]. destruct (PyStr.lt0 f); reflexivity.
Qed.

(** X11.  When the entity polls, unthrottled, a page that passes the
    title check and whose analysis returns [None], its update returns
    normally: state, trend and icon stay as they were, while the fetcher
    holds nothing and the attributes shrink to the attribution alone. *)
Theorem entity_after_failed_analysis (self : t) (w w' : World) (now : Z)
    (soup : Soup.node) :
  Throttle.throttled now (EastmoneyData.throttle (fund_data self)) = false ->
  EastmoneyData.tit_ok (EastmoneyData._get_fund_tit soup)
    (EastmoneyData.fund_id (fund_data self)) = true ->
  EastmoneyData._analyze soup
    (note_request (EastmoneyData.url_of (EastmoneyData.fund_id (fund_data self))) w)
  = (Val None, w') ->
  exists self',
    update now (Response soup) (self, w) = (Val tt, (self', w'))
    /\ _state self' = _state self
    /\ _trend self' = _trend self
    /\ icon self' = icon self
    /\ EastmoneyData.data (fund_data self') = None
    /\ device_state_attributes self' = [("attribution", Some "Powered by East Money")].
Proof.
  intros Hth Ht Ha.
  assert (Hu : EastmoneyData.update now (Response soup) (fund_data self, w)
               = (Val tt,
                  (EastmoneyData.set_throttle
                     (EastmoneyData.set_data (fund_data self) None)
                     (Throttle.stamp now (EastmoneyData.throttle (fund_data self))),
                   w'))).
  { unfold EastmoneyData.update. rewrite Hth.
    rewrite _update_response. cbv zeta. rewrite Ht, Ha. reflexivity. }
  rewrite (update_after_fetch _ _ _ _ _ _ Hu). simpl.
  eexists. split; [reflexivity|]. simpl. auto 10.
Qed.

Lemma entity_after_failed_analysis_witness :
  exists self',
    update 1000 (Response Fixture.page_no_settled)
      (set_trend (set_state (__init__ Fixture.polled "Fund") (Some "1.234")) 1,
       Fixture.w0)
    = (Val tt,
       (self',
        log_line msg_dataItem
          (note_request (EastmoneyData.url_of "000001") Fixture.w0)))
    /\ _state self' = Some "1.234"
    /\ _trend self' = 1%Z
    /\ device_state_attributes self' = [("attribution", Some "Powered by East Money")].
Proof.
  destruct (entity_after_failed_analysis
              (set_trend (set_state (__init__ Fixture.polled "Fund") (Some "1.234")) 1)
              Fixture.w0
              (log_line msg_dataItem
                 (note_request (EastmoneyData.url_of "000001") Fixture.w0))
              1000 Fixture.page_no_settled)
    as (self' & Hu & Hs & Ht & _ & _ & Ha).
  - vm_compute; reflexivity.
  - vm_compute; reflexivity.
  - vm_compute; reflexivity.
  - exists self'. split; [exact Hu|]. split; [exact Hs|]. split; [exact Ht|].
    exact Ha.
Defined.

Lemma entity_update_fields (now : Z) (reply : http_result) (self : t) (w : World) :
  fund_data (fst (snd (update now reply (self, w))))
  = fst (snd (EastmoneyData.update now reply (fund_data self, w)))
  /\ client_name (fst (snd (update now reply (self, w)))) = client_name self
  /\ (_trend (fst (snd (update now reply (self, w)))) = _trend self
      \/ In (_trend (fst (snd (update now reply (self, w))))) [1; -1; 0]%Z).
Proof.
  unfold update.
  destruct (EastmoneyData.update now reply (fund_data self, w))
    as [[[]|e] [fd w1]]; [|simpl; repeat split; auto].
  destruct (EastmoneyData.data fd) as [d|]; [|simpl; repeat split; auto].
  cbv zeta.
  destruct (py_float _ w1) as [[f|e] w2]; [|simpl; repeat split; auto].
  destruct (PyStr.gt0 f); [simpl; repeat split; auto 6|].
  destruct (PyStr.lt0 f); simpl; repeat split; auto 6.
Qed.

Lemma attributes_shape (self : t) :
  data_ok (fund_data self) ->
  device_state_attributes self = [("attribution", Some "Powered by East Money")]
  \/ exists t d v,
       map fst (device_state_attributes self) = attribute_keys
       /\ In ("attribution", Some (t ++ " Powered by East Money"))
            (device_state_attributes self)
       /\ In ("last trading day", Some d) (device_state_attributes self)
       /\ In ("last nav", Some v) (device_state_attributes self)
       /\ (exists s, EastmoneyData.data (fund_data self) = Some s
                     /\ EstNav.enav_time (est_nav s) = Some t).
Proof.
  unfold data_ok, device_state_attributes.
  destruct (EastmoneyData.data (fund_data self)) as [s|]; [|auto].
  intros (_ & (t & Ht & Hl) & (v & Hv) & (d & Hd)). right.
  exists t, d, v. rewrite Hl, Hv, Hd. simpl.
  split; [reflexivity|]. split; [auto|]. split; [auto 10|]. split; [auto 10|].
  exists s. auto.
Qed.

(** X12.  Through any sequence of updates of an entity built over a
    fetcher that holds nothing or a complete snapshot, the name stays,
    the trend is one of [-1], [0] and [1], and the attribute dictionary
    is either the attribution alone or has its eight keys, with the
    attribution made of the estimate time and with the settled date and
    value set. *)
Theorem entity_invariants (calls : list (Z * http_result))
    (fd : EastmoneyData.t) (name : string) (w : World) :
  data_ok fd ->
  let self' := fst (Run.entity_polls calls (__init__ fd name, w)) in
  client_name self' = name
  /\ In (_trend self') [1; -1; 0]%Z
  /\ (device_state_attributes self'
      = [("attribution", Some "Powered by East Money")]
      \/ exists t d v,
           map fst (device_state_attributes self') = attribute_keys
           /\ In ("attribution", Some (t ++ " Powered by East Money"))
                (device_state_attributes self')
           /\ In ("last trading day", Some d) (device_state_attributes self')
           /\ In ("last nav", Some v) (device_state_attributes self')
           /\ (exists s, EastmoneyData.data (fund_data self') = Some s
                         /\ EstNav.enav_time (est_nav s) = Some t)).
Proof.
  intros Hok. cbv zeta.
  assert (Hinv : forall calls self w,
             data_ok (fund_data self) -> In (_trend self) [1; -1; 0]%Z ->
             let self' := fst (Run.entity_polls calls (self, w)) in
             client_name self' = client_name self
             /\ In (_trend self') [1; -1; 0]%Z
             /\ data_ok (fund_data self')).
  { clear. induction calls as [|[now reply] rest IH]; intros self w Hd Ht.
    - simpl. auto.
    - cbn [Run.entity_polls]. cbv zeta.
      destruct (entity_update_fields now reply self w) as (Hf & Hn & Htr).
      pose proof (data_ok_update now reply (fund_data self) w Hd) as Hd'.
      rewrite <- Hf in Hd'.
      destruct (update now reply (self, w)) as [r [self1 w1]].
      cbn [fst snd] in *.
      assert (Ht1 : In (_trend self1) [1; -1; 0]%Z)
        by (destruct Htr as [-> | ?]; assumption).
      destruct (IH self1 w1 Hd' Ht1) as (A & B & C).
      rewrite <- Hn. auto. }
  destruct (Hinv calls (__init__ fd name) w Hok) as (A & B & C).
  { simpl. auto. }
  split; [exact A|]. split; [exact B|]. apply attributes_shape. exact C.
Qed.

Lemma entity_invariants_witness :
  data_ok Fixture.polled
  /\ In (_trend (fst (Run.entity_polls
                        [(60%Z, Raises Timeout);
                         (1000%Z, Response Fixture.page_up);
                         (2000%Z, Response Fixture.page_no_date)]
                        (__init__ Fixture.polled "Fund", Fixture.w0))))
        [1; -1; 0]%Z.
Proof.
  assert (H : data_ok Fixture.polled).
  { unfold data_ok.
    change (EastmoneyData.data Fixture.polled) with (Some Fixture.snap_ok).
    repeat split; eexists; try split; reflexivity. }
  split; [exact H|].
  exact (proj1 (proj2 (entity_invariants
                         [(60%Z, Raises Timeout);
                          (1000%Z, Response Fixture.page_up);
                          (2000%Z, Response Fixture.page_no_date)]
                         Fixture.polled "Fund" Fixture.w0 H))).
Defined.

End EntityRuns.

(** *** Set-up and the sign of the change, end to end *)

Section EndToEnd.

Import Soup.

(** X13.  [setup_platform] registers an entity only out of a response
    that passed the title check and whose analysis gave a dictionary:
    nothing was logged, the registered entity's fetcher holds that
    dictionary, complete, and the entity starts with no state and the
    downward icon. *)
Theorem setup_registers_complete (now : Z) (reply : http_result)
    (config : Config) (w w' : World) (h h' : Host) :
  setup_platform now reply config (w, h) = (Val None, (w', h')) ->
  exists soup sensor s,
    reply = Response soup
    /\ EastmoneyData.tit_ok (EastmoneyData._get_fund_tit soup)
         (CONF_FUND_ID config) = true
    /\ EastmoneyData._analyze soup
         (note_request (EastmoneyData.url_of (CONF_FUND_ID config)) w)
       = (Val (Some s), w')
    /\ w' = note_request (EastmoneyData.url_of (CONF_FUND_ID config)) w
    /\ h' = (h ++ [([sensor], true)])%list
    /\ EastmoneyData.data (EastmoneySensor.fund_data sensor) = Some s
    /\ complete s
    /\ EastmoneySensor.client_name sensor = CONF_NAME config
    /\ EastmoneySensor.state sensor = None
    /\ EastmoneySensor.icon sensor = "mdi:trending-down".
Proof.
  unfold setup_platform, EastmoneyData.update. simpl Throttle.throttled.
  cbv iota. intros H.
  destruct reply as [e|soup].
  - unfold EastmoneyData._update, requests_get, EastmoneyData.on_world,
      _LOGGER_error in H.
    simpl in H. destruct (EastmoneyData.caught e); simpl in H; discriminate.
  - rewrite _update_response in H. cbv zeta in H.
    simpl EastmoneyData.fund_id in H.
    destruct (EastmoneyData.tit_ok _ _) eqn:Et; [|simpl in H; discriminate].
    destruct (EastmoneyData._analyze soup _) as [[[s|]|e] w2] eqn:Ea;
      simpl in H; try discriminate.
    inversion H; subst. clear H.
    pose proof (_analyze_complete _ _ _ _ Ea) as Hc.
    pose proof (_analyze_inv _ _ _ _ Ea) as (d1 & d2 & _ & _ & _ & Hw).
    subst w'.
    exists soup. eexists. exists s.
    split; [reflexivity|]. split; [exact Et|]. split; [exact Ea|].
    split; [reflexivity|]. split; [reflexivity|]. split; [reflexivity|].
    split; [exact Hc|]. repeat split.
Qed.

Lemma setup_registers_complete_witness :
  setup_platform 0 (Response Fixture.page_ok) Fixture.config (Fixture.w0, [])
  = (Val None,
     (note_request (EastmoneyData.url_of "000001") Fixture.w0,
      [([EastmoneySensor.__init__ Fixture.polled "Fund"], true)]))
  /\ exists soup sensor s,
       Response Fixture.page_ok = Response soup
       /\ EastmoneyData.data (EastmoneySensor.fund_data sensor) = Some s
       /\ complete s.
Proof.
  split; [vm_compute; reflexivity|].
  destruct (setup_registers_complete 0 (Response Fixture.page_ok) Fixture.config
              Fixture.w0 (note_request (EastmoneyData.url_of "000001") Fixture.w0)
              [] [([EastmoneySensor.__init__ Fixture.polled "Fund"], true)])
    as (soup & sensor & s & Hr & _ & _ & _ & _ & Hd & Hc & _).
  - vm_compute; reflexivity.
  - exists soup, sensor, s. auto.
Defined.

(** X14.  When the rate is negative and the change found in the page is
    a numeral without sign and not zero, the stored change is that
    numeral with ["-"] in front, it reads as the opposite number, and an
    entity updating over that snapshot returns normally with trend [-1]
    and the downward icon. *)
Theorem negative_rate_shows_down (self : EastmoneySensor.t) (w w1 w0 w0' : World)
    (now : Z) (reply : http_result) (fd : EastmoneyData.t) (d : Snapshot)
    (estnav_data dd0 dd1 dd2 : node) (rate g : string)
    (f f' : PyStr.pyfloat) :
  EastmoneyData.update now reply (EastmoneySensor.fund_data self, w)
  = (Val tt, (fd, w1)) ->
  EastmoneyData.data fd = Some d ->
  EastmoneyData._get_estnav estnav_data w0 = (Val (Some (est_nav d)), w0') ->
  find_all estnav_data "dd" NoAttr = [dd0; dd1; dd2] ->
  EastmoneyData.text_of (find dd0 "span" (Id "gz_gszzl")) = Some rate ->
  PyStr.parse_float (PyStr.drop_last rate) = Some f ->
  PyStr.lt0 f = true ->
  EastmoneyData.text_of (find dd0 "span" (Id "gz_gszze")) = Some g ->
  Str.unsigned g = true ->
  PyStr.parse_float g = Some f' ->
  PyStr.gt0 f' = true ->
  EstNav.enav_growth (est_nav d) = Some ("-" ++ g)
  /\ (exists m e, f' = PyStr.FDec false m e
                  /\ PyStr.parse_float ("-" ++ g) = Some (PyStr.FDec true m e))
  /\ exists self',
       EastmoneySensor.update now reply (self, w) = (Val tt, (self', w1))
       /\ EastmoneySensor._trend self' = (-1)%Z
       /\ EastmoneySensor.icon self' = "mdi:trending-down".
Proof.
  intros Hu Hd He Hdd Hr Hf Hl Hg Hun Hf' Hgt.
  assert (Hst : EstNav.enav_growth (est_nav d) = Some ("-" ++ g)).
  { rewrite (_get_estnav_three _ _ _ _ _ Hdd) in He. cbv zeta in He.
    destruct (EastmoneyData.is_None _ || EastmoneyData.is_None _) in He;
      [discriminate|].
    rewrite Hr, Hf, Hl, Hg in He. inversion He as [[Hd' Hw]].
    reflexivity. }
  destruct (parse_float_unsigned g f' Hun Hf') as (m & e & -> & Hneg).
  split; [exact Hst|]. split; [eauto|].
  rewrite (update_after_fetch _ _ _ _ _ _ Hu), Hd. cbv zeta.
  rewrite Hst, Hneg.
  assert (Hlt : PyStr.lt0 (PyStr.FDec true m e) = true).
  { simpl in Hgt |- *. exact Hgt. }
  assert (Hng : PyStr.gt0 (PyStr.FDec true m e) = false) by reflexivity.
  rewrite Hng, Hlt. eexists. split; [reflexivity|]. split; reflexivity.
Qed.

Lemma negative_rate_shows_down_witness :
  EstNav.enav_growth (est_nav Fixture.snap_ok) = Some ("-" ++ "0.0069")
  /\ exists self',
       EastmoneySensor.update 60 (Raises Timeout)
         (EastmoneySensor.__init__ Fixture.polled "Fund", Fixture.w0)
       = (Val tt, (self', Fixture.w0))
       /\ EastmoneySensor._trend self' = (-1)%Z
       /\ EastmoneySensor.icon self' = "mdi:trending-down".
Proof.
  destruct (negative_rate_shows_down
              (EastmoneySensor.__init__ Fixture.polled "Fund")
              Fixture.w0 Fixture.w0 Fixture.w0 Fixture.w0 60 (Raises Timeout)
              Fixture.polled Fixture.snap_ok Fixture.est_ok
              (Tag "dd" None ["dataNums"]
                 [Fixture.span_id "gz_gsz" "1.234";
                  Fixture.span_id "gz_gszze" "0.0069";
                  Fixture.span_id "gz_gszzl" "-0.56%"])
              (Tag "dd" None []
                 [Text "1 month: ";
                  Fixture.span_class (Fixture.red "ui-font-middle") "1.20%"])
              (Tag "dd" None []
                 [Text "1 year: ";
                  Fixture.span_class (Fixture.green "ui-font-middle") "-3.40%"])
              "-0.56%" "0.0069"
              (PyStr.FDec true 56 (-2)) (PyStr.FDec false 69 (-4)))
    as (A & _ & B); try (vm_compute; reflexivity).
  split; [exact A | exact B].
Defined.

(** X15.  When the rate is negative and the change found in the page
    already starts with a sign, the stored change has two signs and is
    no numeral: an entity updating over that snapshot raises
    [ValueError], with the value mirrored and the trend as it was. *)
Theorem signed_change_raises_ValueError (self : EastmoneySensor.t)
    (w w1 w0 w0' : World) (now : Z) (reply : http_result)
    (fd : EastmoneyData.t) (d : Snapshot)
    (estnav_data dd0 dd1 dd2 : node) (rate g : string) (f : PyStr.pyfloat) :
  EastmoneyData.update now reply (EastmoneySensor.fund_data self, w)
  = (Val tt, (fd, w1)) ->
  EastmoneyData.data fd = Some d ->
  EastmoneyData._get_estnav estnav_data w0 = (Val (Some (est_nav d)), w0') ->
  find_all estnav_data "dd" NoAttr = [dd0; dd1; dd2] ->
  EastmoneyData.text_of (find dd0 "span" (Id "gz_gszzl")) = Some rate ->
  PyStr.parse_float (PyStr.drop_last rate) = Some f ->
  PyStr.lt0 f = true ->
  EastmoneyData.text_of (find dd0 "span" (Id "gz_gszze")) = Some g ->
  Str.signed g = true ->
  EstNav.enav_growth (est_nav d) = Some ("-" ++ g)
  /\ PyStr.parse_float ("-" ++ g) = None
  /\ exists self',
       EastmoneySensor.update now reply (self, w) = (Exc ValueError, (self', w1))
       /\ EastmoneySensor._state self' = EstNav.enav (est_nav d)
       /\ EastmoneySensor._trend self' = EastmoneySensor._trend self.
Proof.
  intros Hu Hd He Hdd Hr Hf Hl Hg Hsg.
  assert (Hst : EstNav.enav_growth (est_nav d) = Some ("-" ++ g)).
  { rewrite (_get_estnav_three _ _ _ _ _ Hdd) in He. cbv zeta in He.
    destruct (EastmoneyData.is_None _ || EastmoneyData.is_None _) in He;
      [discriminate|].
    rewrite Hr, Hf, Hl, Hg in He. inversion He as [[Hd' Hw]].
    reflexivity. }
  pose proof (parse_float_double_sign g Hsg) as Hno.
  split; [exact Hst|]. split; [exact Hno|].
  rewrite (update_after_fetch _ _ _ _ _ _ Hu), Hd. cbv zeta.
  rewrite Hst, Hno. eexists. split; [reflexivity|]. split; reflexivity.
Qed.

Lemma signed_change_raises_ValueError_witness :
  EastmoneyData.data Fixture2.polled_signed_change
  = Some Fixture2.snap_signed_change
  /\ PyStr.parse_float ("-" ++ "-0.0069") = None
  /\ exists self',
       EastmoneySensor.update 60 (Raises Timeout)
         (EastmoneySensor.__init__ Fixture2.polled_signed_change "Fund", Fixture.w0)
       = (Exc ValueError, (self', Fixture.w0))
       /\ EastmoneySensor._state self' = Some "1.234"
       /\ EastmoneySensor._trend self' = (-1)%Z.
Proof.
  split; [vm_compute; reflexivity|].
  destruct (signed_change_raises_ValueError
              (EastmoneySensor.__init__ Fixture2.polled_signed_change "Fund")
              Fixture.w0 Fixture.w0 Fixture.w0 Fixture.w0 60 (Raises Timeout)
              Fixture2.polled_signed_change Fixture2.snap_signed_change
              (Fixture.est_region (Some "(23-05-10 15:00)") (Some "1.234")
                 (Some "-0.0069") (Some "-0.56%") [] [])
              (Tag "dd" None ["dataNums"]
                 [Fixture.span_id "gz_gsz" "1.234";
                  Fixture.span_id "gz_gszze" "-0.0069";
                  Fixture.span_id "gz_gszzl" "-0.56%"])
              (Tag "dd" None [] [Text "1 month: "])
              (Tag "dd" None [] [Text "1 year: "])
              "-0.56%" "-0.0069" (PyStr.FDec true 56 (-2)))
    as (_ & A & B); try (vm_compute; reflexivity).
  split; [exact A | exact B].
Defined.

End EndToEnd.

(** *** Success of the analysis *)

Section Success.

Import Soup EastmoneyData.

(** X16.  Markup that is complete is always turned into a snapshot:
    with both containers and both blocks present, three [dd] items in
    each, a time, a value and a rate that reads as a number in the
    estimate block (and a change whenever the rate is negative), a [dt]
    holding a date and a value in the settled block, [_analyze] returns
    a dictionary carrying these texts and logs nothing, and a poll whose
    page also passes the title check stores it. *)
Theorem complete_markup_gives_snapshot (self : t) (w : World)
    (soup fund_info_item fund_data data_item_01 data_item_02 : node)
    (e0 e1 e2 n0 n1 n2 dt : node)
    (time value rate date v : string) (f : PyStr.pyfloat) :
  find soup "div" (Class_ "fundInfoItem") = Some fund_info_item ->
  find fund_info_item "div" (Class_ "dataOfFund") = Some fund_data ->
  find fund_data "dl" (Class_ "dataItem01") = Some data_item_01 ->
  find fund_data "dl" (Class_ "dataItem02") = Some data_item_02 ->
  find_all data_item_01 "dd" NoAttr = [e0; e1; e2] ->
  option_map (fun x => PyStr.rstrip ")"%char (PyStr.lstrip "("%char (text x)))
    (find data_item_01 "span" (Id "gz_gztime")) = Some time ->
  text_of (find e0 "span" (Id "gz_gsz")) = Some value ->
  text_of (find e0 "span" (Id "gz_gszzl")) = Some rate ->
  PyStr.parse_float (PyStr.drop_last rate) = Some f ->
  (PyStr.lt0 f = true -> find e0 "span" (Id "gz_gszze") <> None) ->
  find_all data_item_02 "dd" NoAttr = [n0; n1; n2] ->
  find data_item_02 "dt" NoAttr = Some dt ->
  PyStr.first_date (text dt) = Some date ->
  text_of (find_or n0 "span" (Class_ green_large) (Class_ red_large)) = Some v ->
  exists s,
    _analyze soup w = (Val (Some s), w)
    /\ EstNav.enav (est_nav s) = Some value
    /\ EstNav.enav_time (est_nav s) = Some time
    /\ EstNav.enav_rate (est_nav s) = Some rate
    /\ Nav.nav_date (nav s) = Some date
    /\ Nav.nav (nav s) = Some v
    /\ last_update s = Some time
    /\ (tit_ok (_get_fund_tit soup) (fund_id self) = true ->
        _update (Response soup) (self, w)
        = (Val tt, (set_data self (Some s),
                    note_request (url_of (fund_id self)) w))).
Proof.
  intros H1 H2 H3 H4 He Ht Hv Hr Hf Hg Hn Hdt Hd Hnv.
  assert (Hest : exists en,
             (forall w0, _get_estnav data_item_01 w0 = (Val (Some en), w0))
             /\ EstNav.enav en = Some value /\ EstNav.enav_time en = Some time
             /\ EstNav.enav_rate en = Some rate).
  { pose proof (fun w0 => _get_estnav_three _ _ _ _ w0 He) as HE.
    cbv zeta in HE. rewrite Ht, Hv, Hr, Hf in HE. simpl in HE.
    destruct (PyStr.lt0 f) eqn:El.
    - destruct (find e0 "span" (Id "gz_gszze")) as [g|] eqn:Eg.
      + simpl in HE. eexists. split; [exact HE|]. simpl. auto.
      + exfalso. exact (Hg eq_refl eq_refl).
    - eexists. split; [exact HE|]. simpl. auto. }
  assert (Hnav : exists nv,
             (forall w0, _get_nav data_item_02 w0 = (Val (Some nv), w0))
             /\ Nav.nav_date nv = Some date /\ Nav.nav nv = Some v).
  { pose proof (fun w0 => _get_nav_three _ _ _ _ w0 Hn) as HN.
    cbv zeta in HN. rewrite Hdt, Hd, Hnv in HN. simpl in HN.
    eexists. split; [exact HN|]. simpl. auto. }
  destruct Hest as (en & HE & A & B & C). destruct Hnav as (nv & HN & D & E).
  assert (Hall : forall w1,
             _analyze soup w1
             = (Val (Some {| est_nav := en; nav := nv;
                             last_update := EstNav.enav_time en |}), w1)).
  { intros w1. unfold _analyze. rewrite H1, H2, H3, H4. unfold bind.
    rewrite HE, HN. reflexivity. }
  eexists. split; [apply Hall|]. cbn [est_nav nav last_update].
  repeat (split; [assumption|]).
  intros Hok. rewrite _update_response. cbv zeta. rewrite Hok, Hall. reflexivity.
Qed.

Lemma complete_markup_gives_snapshot_witness :
  exists s,
    _analyze Fixture.page_ok Fixture.w0 = (Val (Some s), Fixture.w0)
    /\ EstNav.enav (est_nav s) = Some "1.234"
    /\ Nav.nav_date (nav s) = Some "2023-5-9"
    /\ _update (Response Fixture.page_ok) (Fixture.fresh, Fixture.w0)
       = (Val tt, (set_data Fixture.fresh (Some s),
                   note_request (url_of "000001") Fixture.w0)).
Proof.
  destruct (complete_markup_gives_snapshot Fixture.fresh Fixture.w0 Fixture.page_ok
              (Tag "div" None ["fundInfoItem"]
                 [Tag "div" None ["dataOfFund"] [Fixture.est_ok; Fixture.settled_ok]])
              (Tag "div" None ["dataOfFund"] [Fixture.est_ok; Fixture.settled_ok])
              Fixture.est_ok Fixture.settled_ok
              (Tag "dd" None ["dataNums"]
                 [Fixture.span_id "gz_gsz" "1.234";
                  Fixture.span_id "gz_gszze" "0.0069";
                  Fixture.span_id "gz_gszzl" "-0.56%"])
              (Tag "dd" None []
                 [Text "1 month: ";
                  Fixture.span_class (Fixture.red "ui-font-middle") "1.20%"])
              (Tag "dd" None []
                 [Text "1 year: ";
                  Fixture.span_class (Fixture.green "ui-font-middle") "-3.40%"])
              (Tag "dd" None ["dataNums"]
                 [Fixture.span_class (Fixture.red "ui-font-large") "1.200";
                  Fixture.span_class (Fixture.red "ui-font-middle") "0.50%"])
              (Tag "dd" None []
                 [Text "3 months: ";
                  Fixture.span_class (Fixture.green "ui-font-middle") "-2.10%"])
              (Tag "dd" None []
                 [Text "3 years: ";
                  Fixture.span_class (Fixture.red "ui-font-middle") "12.00%"])
              (Tag "dt" None [] [Text "Net value (2023-5-9)"])
              "23-05-10 15:00" "1.234" "-0.56%" "2023-5-9" "1.200"
              (PyStr.FDec true 56 (-2)))
    as (s & Ha & Av & _ & _ & Ad & _ & _ & Hu);
    try (vm_compute; reflexivity).
  - intros _. vm_compute. discriminate.
  - exists s. split; [exact Ha|]. split; [exact Av|]. split; [exact Ad|].
    apply Hu. vm_compute; reflexivity.
Defined.

(** X17.  What a poll stores does not depend on what was held or logged
    before: two fetchers for the same fund that analyse the same page
    end with the same snapshot and the same outcome. *)
Theorem snapshot_replaced_wholesale (self1 self2 : t) (w1 w2 : World)
    (soup : node) :
  fund_id self1 = fund_id self2 ->
  tit_ok (_get_fund_tit soup) (fund_id self1) = true ->
  fst (_update (Response soup) (self1, w1)) = fst (_update (Response soup) (self2, w2))
  /\ (fst (_update (Response soup) (self1, w1)) = Val tt ->
      data (fst (snd (_update (Response soup) (self1, w1))))
      = data (fst (snd (_update (Response soup) (self2, w2))))).
Proof.
  intros Hid Ht.
  assert (Hind : forall wa wb, fst (_analyze soup wa) = fst (_analyze soup wb)).
  { intros wa wb. unfold _analyze.
    destruct (find soup "div" (Class_ "fundInfoItem")) as [fii|]; [|reflexivity].
    destruct (find fii "div" (Class_ "dataOfFund")) as [fd|]; [|reflexivity].
    destruct (find fd "dl" (Class_ "dataItem01")) as [d1|]; [|reflexivity].
    destruct (find fd "dl" (Class_ "dataItem02")) as [d2|]; [|reflexivity].
    unfold bind.
    assert (He : forall w, exists r w', forall w0,
                 _get_estnav d1 w = (r, w') /\ fst (_get_estnav d1 w0) = r).
    { intros w.
      destruct (three_or_not (find_all d1 "dd" NoAttr))
        as [(a & b & c & Hdd) | Hn].
      - eexists _, _. intros w0. rewrite !(_get_estnav_three _ _ _ _ _ Hdd).
        split; reflexivity.
      - eexists _, _. intros w0. rewrite !(_get_estnav_not_three _ _ Hn).
        split; reflexivity. }
    assert (Hn : forall w, exists r w', forall w0,
                 _get_nav d2 w = (r, w') /\ fst (_get_nav d2 w0) = r).
    { intros w.
      destruct (three_or_not (find_all d2 "dd" NoAttr))
        as [(a & b & c & Hdd) | Hn].
      - eexists _, _. intros w0. rewrite !(_get_nav_three _ _ _ _ _ Hdd).
        split; reflexivity.
      - eexists _, _. intros w0. rewrite !(_get_nav_not_three _ _ Hn).
        split; reflexivity. }
    destruct (He wa) as (re & wa' & Hea).
    destruct (Hea wa) as [Ea _]. destruct (Hea wb) as [_ Eb].
    rewrite Ea. destruct (_get_estnav d1 wb) as [rb wb'] eqn:Eqb.
    simpl in Eb. subst rb.
    destruct re as [en|x]; [|reflexivity].
    destruct (Hn wa') as (rn & wa'' & Hna).
    destruct (Hna wa') as [Na _]. destruct (Hna wb') as [_ Nb].
    rewrite Na. destruct (_get_nav d2 wb') as [rb wb''] eqn:Eqn.
    simpl in Nb. subst rb.
    destruct rn as [nv|x]; [|reflexivity].
    destruct en, nv; reflexivity. }
  rewrite !_update_response. cbv zeta. rewrite <- Hid, Ht.
  specialize (Hind (note_request (url_of (fund_id self1)) w1)
                   (note_request (url_of (fund_id self1)) w2)).
  destruct (_analyze soup (note_request (url_of (fund_id self1)) w1))
    as [[d|e] wa];
    destruct (_analyze soup (note_request (url_of (fund_id self1)) w2))
    as [[d'|e'] wb]; simpl in Hind; try discriminate; inversion Hind; subst;
    simpl; auto.
  split; [reflexivity|]. discriminate.
Qed.

Lemma snapshot_replaced_wholesale_witness :
  fund_id Fixture.fresh = fund_id Fixture.polled
  /\ data (fst (snd (_update (Response Fixture.page_up) (Fixture.fresh, Fixture.w0))))
     = data (fst (snd (_update (Response Fixture.page_up)
                         (Fixture.polled, log_line msg_dd Fixture.w0)))).
Proof.
  split; [reflexivity|].
  apply (proj2 (snapshot_replaced_wholesale Fixture.fresh Fixture.polled
                  Fixture.w0 (log_line msg_dd Fixture.w0) Fixture.page_up
                  eq_refl ltac:(vm_compute; reflexivity))).
  vm_compute; reflexivity.
Defined.

End Success.
